(** * SmartShop predictor: purchase analytics and prediction ranking

    A shallow embedding of
      - [app/models/purchase_record.py]      (PurchaseRecord),
      - [app/models/product_analytics.py]    (ProductAnalytics and its two
        presentation methods),
      - [app/services/purchase_analytics_service.py]
        (PurchaseAnalyticsService.update_analytics),
      - [app/services/purchase_prediction_service.py]
        (PurchasePredictionService.get_predicted_purchases,
        get_shopping_summary and get_item_prediction),
    followed by the properties of these functions.

    Conventions of the embedding.
      - A naive [datetime] is its number of microseconds since
        0001-01-01T00:00:00, a [timedelta] a signed number of
        microseconds.  The two operations that build a new value,
        [timedelta(days=x)] and [datetime + timedelta], raise
        [OverflowError] outside Python's ranges (999999999 days; years 1
        to 9999).
      - A Python [float] is an exact rational ([Q]).  Every float the
        services compute is a quotient or product of day counts and small
        integers; binary64 rounding, infinities and NaN are not represented.
      - A nullable column is an [option]; Python truthiness ([if x:],
        [x or d]) is written out for each type it is used at.
      - Code that can raise runs in the [outcome] monad; [try]/[except] is
        [try_except].
      - The database session is a record of the answers it gives to the
        statements the services execute. *)

From Stdlib Require Import ZArith QArith Qround List String Ascii Bool Lia Lqa.
From Stdlib Require Import DecimalString Sorted Permutation.
Import ListNotations.

Local Open Scope Z_scope.

(* ================================================================== *)
(** ** Python runtime fragments *)
(* ================================================================== *)

Module Py.

(** The exceptions that can reach the services' handlers. *)
Inductive exn : Type :=
| ZeroDivisionError
| OverflowError
| TypeError
| SQLAlchemyError (detail : string).

Inductive outcome (A : Type) : Type :=
| Returned (a : A)
| Raised (e : exn).
Arguments Returned {A} a.
Arguments Raised {A} e.

Definition ret {A} (a : A) : outcome A := Returned a.

Definition bind {A B} (c : outcome A) (k : A -> outcome B) : outcome B :=
  match c with
  | Returned a => k a
  | Raised e => Raised e
  end.

(** [try: body / except Exception as e: handler e]. *)
Definition try_except {A} (body : outcome A) (handler : exn -> outcome A)
  : outcome A :=
  match body with
  | Returned a => Returned a
  | Raised e => handler e
  end.

(** Truth value of a float: every float but zero. *)
Definition float_truthy (x : Q) : bool := negb (Qeq_bool x 0).

(** Truth value of an int: every int but zero. *)
Definition int_truthy (n : Z) : bool := negb (n =? 0).

(** [x > 0] on floats. *)
Definition float_gt0 (x : Q) : bool := negb (Qle_bool x 0).

(** [x >= y] on floats. *)
Definition float_ge (x y : Q) : bool := Qle_bool y x.

(** [x < y] on floats. *)
Definition float_lt (x y : Q) : bool := negb (Qle_bool y x).

(** [float(n)] for an int. *)
Definition float_of_int (n : Z) : Q := inject_Z n.

(** True division [x / y]; ints are converted to floats by the caller. *)
Definition truediv (x y : Q) : outcome Q :=
  if Qeq_bool y 0 then Raised ZeroDivisionError else Returned (x / y)%Q.

(** A number as the right operand of [or] leaves it: the float itself
    when it is truthy, the int default otherwise. *)
Inductive number : Type :=
| PyInt (n : Z)
| PyFloat (x : Q).

(** [x or d] for [x : Optional[float]] and an int [d]. *)
Definition opt_float_or (x : option Q) (d : Z) : number :=
  match x with
  | Some v => if float_truthy v then PyFloat v else PyInt d
  | None => PyInt d
  end.

(** [n or d] for [n : Optional[int]] and an int [d]. *)
Definition opt_int_or (n : option Z) (d : Z) : Z :=
  match n with
  | Some v => if int_truthy v then v else d
  | None => d
  end.

(** [int(x)] on a float truncates towards zero. *)
Definition trunc (x : Q) : Z := Z.quot (Qnum x) (Zpos (Qden x)).

(** [int(v)]. *)
Definition int (v : number) : Z :=
  match v with
  | PyInt n => n
  | PyFloat x => trunc x
  end.

(** [min(l)] and [max(l)] on a non-empty list of ints, given as head and
    tail. *)
Definition min (x : Z) (l : list Z) : Z := fold_left Z.min l x.
Definition max (x : Z) (l : list Z) : Z := fold_left Z.max l x.

(** Rounding to the nearest integer, ties to even: the rounding of the
    [.0f] format and of [timedelta]'s float arguments. *)
Definition round_half_even (x : Q) : Z :=
  let f := Qfloor x in
  match Qcompare (x - inject_Z f)%Q (1 # 2)%Q with
  | Lt => f
  | Gt => f + 1
  | Eq => if Z.even f then f else f + 1
  end.

(** [str(n)] for an int [n >= 0] (used on magnitudes only). *)
Definition digits (n : Z) : string := NilZero.string_of_int (Z.to_int n).

(** [format(x, ".0f")]: sign, then the rounded magnitude. *)
Definition format_0f (x : Q) : string :=
  if float_lt x 0
  then String "-" (digits (round_half_even (- x)%Q))
  else digits (round_half_even x).

End Py.

Import Py.

Declare Scope py_scope.
Notation "x <- c ;; k" := (bind c (fun x => k))
(at level 61, c at next level, right associativity) : py_scope.
Notation "c ;;; k" := (bind c (fun _ => k))
(at level 61, right associativity) : py_scope.
Local Open Scope py_scope.

(* ================================================================== *)
(** ** datetime and timedelta *)
(* ================================================================== *)

Module Datetime.

(** Microseconds on the time line. *)
Definition datetime : Type := Z.
(** Signed microseconds. *)
Definition timedelta : Type := Z.

Definition us_per_day : Z := 86400000000.

(** [a - b] on datetimes. *)
Definition sub (a b : datetime) : timedelta := a - b.

(** [d.days]: the normalised form keeps seconds and microseconds
    non-negative, so the day count is the floor. *)
Definition days (d : timedelta) : Z := d / us_per_day.

(** [datetime.min] is 0001-01-01T00:00:00 and [datetime.max] is
    9999-12-31T23:59:59.999999, which is day 3652058 of the time line. *)
Definition datetime_min : datetime := 0.
Definition datetime_max : datetime := 3652059 * us_per_day - 1.

(** A timedelta holds at most 999999999 days, either way. *)
Definition max_timedelta_days : Z := 999999999.

(** [timedelta(days=x)] for a float [x]: rounded to the microsecond;
    [OverflowError] when the day count is out of range. *)
Definition timedelta_of_days (x : Q) : outcome timedelta :=
  let d := round_half_even (x * inject_Z us_per_day)%Q in
  if (- max_timedelta_days <=? days d) && (days d <=? max_timedelta_days)
  then Returned d
  else Raised OverflowError.

(** [t + d]; [OverflowError] when the date leaves the years 1 to 9999. *)
Definition add (t : datetime) (d : timedelta) : outcome datetime :=
  let r := t + d in
  if (datetime_min <=? r) && (r <=? datetime_max)
  then Returned r
  else Raised OverflowError.

(** Midnight of the [n]-th day after 0001-01-01 (for examples). *)
Definition day (n : Z) : datetime := n * us_per_day.

End Datetime.

Import Datetime.

(* ================================================================== *)
(** ** app/models/purchase_record.py *)
(* ================================================================== *)

Module PurchaseRecord.

(** The columns the services read.  [purchase_date] is not nullable. *)
Record t : Type := Build {
  user_id : Z;
  item_name : string;
  purchase_date : datetime
}.

End PurchaseRecord.

(* ================================================================== *)
(** ** app/models/product_analytics.py *)
(* ================================================================== *)

Module ProductAnalytics.

(** One row per (user, product).  [repurchase_urgency] and
    [repurchase_probability] are read only from rows that passed the
    ranking query's comparisons, hence never NULL there. *)
Record t : Type := Build {
  user_id : Z;
  product_name : string;
  total_purchases : option Z;
  last_purchase_date : option datetime;
  avg_days_between_purchases : option Q;
  days_since_last_purchase : option Q;
  min_days_interval : option Q;
  max_days_interval : option Q;
  repurchase_urgency : Q;
  repurchase_probability : Q;
  is_seasonal : option bool;
  estimated_next_purchase_date : option datetime;
  last_analyzed_at : option datetime
}.

(** [ProductAnalytics(user_id=..., product_name=...)]: the other
    attributes are unset until the service assigns them; the two scores
    are shown at their column default, and are assigned before any use. *)
Definition new (user_id : Z) (product_name : string) : t :=
  {| user_id := user_id;
     product_name := product_name;
     total_purchases := None;
     last_purchase_date := None;
     avg_days_between_purchases := None;
     days_since_last_purchase := None;
     min_days_interval := None;
     max_days_interval := None;
     repurchase_urgency := 0;
     repurchase_probability := 0;
     is_seasonal := None;
     estimated_next_purchase_date := None;
     last_analyzed_at := None |}.

(** [get_urgency_status]. *)
Definition get_urgency_status (self : t) : string :=
  if float_ge (repurchase_urgency self) 100 then "🔴 OVERDUE"
  else if float_ge (repurchase_urgency self) 85 then "🟠 URGENT"
  else if float_ge (repurchase_urgency self) 70 then "🟡 SOON"
  else if float_ge (repurchase_urgency self) 50 then "🟢 UPCOMING"
  else "⚪ OPTIONAL".

(** [get_prediction_message].  The guard is the truth value of the two
    columns, so that [None] and [0.0] both fail it. *)
Definition get_prediction_message (self : t) : string :=
  match avg_days_between_purchases self, days_since_last_purchase self with
  | Some avg, Some since =>
      if float_truthy avg && float_truthy since
      then "You usually buy " ++ product_name self ++ " every "
           ++ format_0f avg ++ " days. Last purchase: "
           ++ format_0f since ++ " days ago."
      else "Not enough data for " ++ product_name self
           ++ " predictions yet."
  | _, _ => "Not enough data for " ++ product_name self
            ++ " predictions yet."
  end.

(** A row read by name, with no comparison on its scores.  Both score
    columns are nullable: when one holds NULL, the field of [columns] that
    stands for it is not read. *)
Record unchecked : Type := {
  columns : t;
  urgency_is_null : bool;
  probability_is_null : bool
}.

(** A row whose scores are known not to be NULL, as an unchecked row. *)
Definition checked (a : t) : unchecked :=
  {| columns := a; urgency_is_null := false; probability_is_null := false |}.

(** [get_urgency_status] on an unchecked row: [None >= 100] raises
    [TypeError]. *)
Definition get_urgency_status_unchecked (self : unchecked) : outcome string :=
  if urgency_is_null self
  then Raised TypeError
  else Returned (get_urgency_status (columns self)).

End ProductAnalytics.

(* ================================================================== *)
(** ** The database session *)
(* ================================================================== *)

Module Database.

(** What a session answers to each statement the services execute; any
    of them can raise.  The WHERE and ORDER BY clauses are the storage
    layer's business: the services trust the rows they are handed. *)
Record Session : Type := {
  (** [select(PurchaseRecord).where(user_id, item_name)
        .order_by(purchase_date.asc())], then [.scalars().all()] *)
  select_purchases : Z -> string -> outcome (list PurchaseRecord.t);
  (** [select(count(distinct(purchase_date))).where(user_id)], then
      [.scalar()] *)
  count_purchase_dates : Z -> outcome (option Z);
  (** [select(ProductAnalytics).where(user_id, product_name)], then
      [.scalars().first()], as [update_analytics] executes it: the scores
      of the row are assigned before anything reads them *)
  select_analytics : Z -> string -> outcome (option ProductAnalytics.t);
  (** [select(ProductAnalytics).where(user_id, repurchase_urgency >=
        threshold, repurchase_probability > 0)
        .order_by(repurchase_urgency.desc()).limit(limit)], then
      [.scalars().all()] *)
  select_ranked : Z -> Q -> Z -> outcome (list ProductAnalytics.t);
  (** [select(ProductAnalytics).where(user_id, product_name)], then
      [.scalars().first()], as [get_item_prediction] executes it: the
      scores of the row are read as they are stored *)
  select_item : Z -> string -> outcome (option ProductAnalytics.unchecked);
  commit : outcome unit;
  rollback : outcome unit
}.

(** [if session is None: async with AsyncSessionLocal() as session: ...]:
    the call runs on the session passed, or on a fresh one. *)
Definition session_or (session : option Session) (fresh : Session)
  : Session :=
  match session with
  | Some s => s
  | None => fresh
  end.

End Database.

Import Database.

(* ================================================================== *)
(** ** app/services/purchase_analytics_service.py *)
(* ================================================================== *)

Module PurchaseAnalyticsService.

(** The loop [for i in range(1, len(purchases))] with [prev] standing for
    [purchases[i-1]]. *)
Fixpoint intervals_from (prev : PurchaseRecord.t)
    (rest : list PurchaseRecord.t) : list Z :=
  match rest with
  | [] => []
  | p :: rest' =>
      days (sub (PurchaseRecord.purchase_date p)
                (PurchaseRecord.purchase_date prev))
      :: intervals_from p rest'
  end.

Definition intervals (purchases : list PurchaseRecord.t) : list Z :=
  match purchases with
  | [] => []
  | p :: rest => intervals_from p rest
  end.

(** [min(intervals) if intervals else None]. *)
Definition min_or_none (intervals : list Z) : option Z :=
  match intervals with
  | [] => None
  | x :: l => Some (Py.min x l)
  end.

(** [max(intervals) if intervals else None]. *)
Definition max_or_none (intervals : list Z) : option Z :=
  match intervals with
  | [] => None
  | x :: l => Some (Py.max x l)
  end.

(** [float(m) if m else None] for [m : Optional[int]]. *)
Definition float_if_truthy (m : option Z) : option Q :=
  match m with
  | Some v => if int_truthy v then Some (float_of_int v) else None
  | None => None
  end.

(** Lines 66-70: the average interval, over the span of the history. *)
Definition avg_days (total_purchases : Z)
    (first_purchase_date last_purchase_date : datetime)
  : outcome (option Q) :=
  if 1 <? total_purchases
  then
    let days_diff := days (sub last_purchase_date first_purchase_date) in
    q <- truediv (float_of_int days_diff)
                 (float_of_int (total_purchases - 1)) ;;
    ret (Some q)
  else ret None.

(** Lines 85-88: [if avg_days and avg_days > 0: ... else: 0.0]. *)
Definition urgency_score (days_since_last : Z) (avg_days : option Q)
  : outcome Q :=
  match avg_days with
  | Some avg =>
      if float_truthy avg && float_gt0 avg
      then
        q <- truediv (float_of_int days_since_last) avg ;;
        ret (q * 100)%Q
      else ret 0%Q
  | None => ret 0%Q
  end.

(** Lines 97-99: [dates] is what [.scalar()] gave for the count of
    distinct purchase dates. *)
Definition repurchase_probability (total_purchases : Z) (dates : option Z)
  : outcome Q :=
  let total_purchase_dates := opt_int_or dates 1 in
  q <- truediv (float_of_int total_purchases)
               (float_of_int total_purchase_dates) ;;
  ret (q * 100)%Q.

(** Lines 102-105: [if avg_days: last + timedelta(days=avg_days)]. *)
Definition estimated_next (last_purchase_date : datetime)
    (avg_days : option Q) : outcome (option datetime) :=
  match avg_days with
  | Some avg =>
      if float_truthy avg
      then
        step <- timedelta_of_days avg ;;
        t <- add last_purchase_date step ;;
        ret (Some t)
      else ret None
  | None => ret None
  end.

(** Lines 123-132: the assignments to the row; the columns the service
    does not assign keep their value. *)
Definition assign (analytics : ProductAnalytics.t) (total_purchases : Z)
    (last_purchase_date : datetime) (avg_days : option Q)
    (days_since_last : Z) (min_interval max_interval : option Z)
    (urgency_score repurchase_probability : Q)
    (estimated_next : option datetime) (now : datetime)
  : ProductAnalytics.t :=
  {| ProductAnalytics.user_id := ProductAnalytics.user_id analytics;
     ProductAnalytics.product_name :=
       ProductAnalytics.product_name analytics;
     ProductAnalytics.total_purchases := Some total_purchases;
     ProductAnalytics.last_purchase_date := Some last_purchase_date;
     ProductAnalytics.avg_days_between_purchases := avg_days;
     ProductAnalytics.days_since_last_purchase :=
       Some (float_of_int days_since_last);
     ProductAnalytics.min_days_interval := float_if_truthy min_interval;
     ProductAnalytics.max_days_interval := float_if_truthy max_interval;
     ProductAnalytics.repurchase_urgency := urgency_score;
     ProductAnalytics.repurchase_probability := repurchase_probability;
     ProductAnalytics.is_seasonal := ProductAnalytics.is_seasonal analytics;
     ProductAnalytics.estimated_next_purchase_date := estimated_next;
     ProductAnalytics.last_analyzed_at := Some now |}.

Section Service.

(** [app.core.database.AsyncSessionLocal()], used when no session is
    passed. *)
Variable AsyncSessionLocal : Session.

(** The two readings of [datetime.utcnow()]: the one that dates
    [days_since_last] and the one that stamps [last_analyzed_at]. *)
Variables (utcnow utcnow' : datetime).

Definition update_analytics (user_id : Z) (product_name : string)
    (session : option Session) : outcome (option ProductAnalytics.t) :=
  let session := session_or session AsyncSessionLocal in
  try_except
    (purchases <- select_purchases session user_id product_name ;;
     match purchases with
     | [] => ret None
     | first :: _ =>
       let total_purchases := Z.of_nat (List.length purchases) in
       let last_purchase_date :=
         PurchaseRecord.purchase_date (last purchases first) in
       let first_purchase_date := PurchaseRecord.purchase_date first in
       avg_days <-
         avg_days total_purchases first_purchase_date last_purchase_date ;;
       let days_since_last := days (sub utcnow last_purchase_date) in
       let intervals := intervals purchases in
       let min_interval := min_or_none intervals in
       let max_interval := max_or_none intervals in
       urgency_score <- urgency_score days_since_last avg_days ;;
       dates <- count_purchase_dates session user_id ;;
       repurchase_probability <-
         repurchase_probability total_purchases dates ;;
       estimated_next <- estimated_next last_purchase_date avg_days ;;
       found <- select_analytics session user_id product_name ;;
       let analytics :=
         match found with
         | Some a => a
         | None => ProductAnalytics.new user_id product_name
         end in
       let analytics :=
         assign analytics total_purchases last_purchase_date avg_days
                days_since_last min_interval max_interval urgency_score
                repurchase_probability estimated_next utcnow' in
       commit session ;;;
       ret (Some analytics)
     end)
    (fun _ => rollback session ;;; ret None).

End Service.

End PurchaseAnalyticsService.

(* ================================================================== *)
(** ** app/services/purchase_prediction_service.py *)
(* ================================================================== *)

Module PurchasePredictionService.

(** The dict built for each ranked row. *)
Record Prediction : Type := {
  product_name : string;
  urgency : Q;
  confidence : Q;
  days_since_last : Z;
  avg_interval : Z;
  status : string;
  message : string;
  last_purchase : option string;
  estimated_next : option string
}.

Section Service.

Variable AsyncSessionLocal : Session.

(** [datetime.isoformat]; the rendering itself plays no part below. *)
Variable isoformat : datetime -> string.

(** The body of the loop over [analytics_list]. *)
Definition prediction_of (analytics : ProductAnalytics.t) : Prediction :=
  {| product_name := ProductAnalytics.product_name analytics;
     urgency := ProductAnalytics.repurchase_urgency analytics;
     confidence := ProductAnalytics.repurchase_probability analytics;
     days_since_last :=
       int (opt_float_or
              (ProductAnalytics.days_since_last_purchase analytics) 0);
     avg_interval :=
       int (opt_float_or
              (ProductAnalytics.avg_days_between_purchases analytics) 0);
     status := ProductAnalytics.get_urgency_status analytics;
     message := ProductAnalytics.get_prediction_message analytics;
     last_purchase :=
       match ProductAnalytics.last_purchase_date analytics with
       | Some d => Some (isoformat d)
       | None => None
       end;
     estimated_next :=
       match ProductAnalytics.estimated_next_purchase_date analytics with
       | Some d => Some (isoformat d)
       | None => None
       end |}.

Definition get_predicted_purchases (user_id : Z) (urgency_threshold : Q)
    (limit : Z) (session : option Session) : outcome (list Prediction) :=
  let session := session_or session AsyncSessionLocal in
  try_except
    (analytics_list <-
       select_ranked session user_id urgency_threshold limit ;;
     let predictions := map prediction_of analytics_list in
     ret predictions)
    (fun _ => ret []).

End Service.

(** The dict returned by [get_shopping_summary].  The dict of the
    [except] branch has no "summary" key. *)
Record Summary : Type := {
  urgent : list Prediction;
  upcoming : list Prediction;
  optional : list Prediction;
  total : Z;
  summary : option string
}.

(** The dict returned by [get_item_prediction]. *)
Module Detail.

Record t : Type := {
  product_name : string;
  total_purchases : option Z;
  last_purchase_date : option string;
  avg_interval_days : option Q;
  days_since_last : option Q;
  min_interval : option Q;
  max_interval : option Q;
  urgency_score : Q;
  confidence : option Q;
  is_seasonal : option bool;
  next_purchase_estimate : option string;
  status : string;
  recommendation : string
}.

End Detail.

Section Views.

Variable AsyncSessionLocal : Session.
Variable isoformat : datetime -> string.

(** [len(l)] inside an f-string. *)
Definition len_str {A} (l : list A) : string :=
  digits (Z.of_nat (List.length l)).

Definition get_shopping_summary (user_id : Z) (session : option Session)
  : outcome Summary :=
  let session := session_or session AsyncSessionLocal in
  try_except
    (predictions <-
       get_predicted_purchases AsyncSessionLocal isoformat user_id 0%Q 999
                               (Some session) ;;
     let urgent := filter (fun p => float_ge (urgency p) 90) predictions in
     let upcoming :=
       filter (fun p => float_ge (urgency p) 70 && float_lt (urgency p) 90)
              predictions in
     let optional := filter (fun p => float_lt (urgency p) 70) predictions in
     ret {| urgent := urgent;
            upcoming := upcoming;
            optional := optional;
            total := Z.of_nat (List.length predictions);
            summary :=
              Some ("You need to shop soon! " ++ len_str urgent
                    ++ " urgent items, " ++ len_str upcoming
                    ++ " upcoming.")%string |})
    (fun _ =>
       ret {| urgent := [];
              upcoming := [];
              optional := [];
              total := 0;
              summary := None |}).

(** The dict of [get_item_prediction] for a row whose urgency is not
    NULL. *)
Definition detail_of (analytics : ProductAnalytics.unchecked) : Detail.t :=
  let row := ProductAnalytics.columns analytics in
  {| Detail.product_name := ProductAnalytics.product_name row;
     Detail.total_purchases := ProductAnalytics.total_purchases row;
     Detail.last_purchase_date :=
       match ProductAnalytics.last_purchase_date row with
       | Some d => Some (isoformat d)
       | None => None
       end;
     Detail.avg_interval_days :=
       ProductAnalytics.avg_days_between_purchases row;
     Detail.days_since_last := ProductAnalytics.days_since_last_purchase row;
     Detail.min_interval := ProductAnalytics.min_days_interval row;
     Detail.max_interval := ProductAnalytics.max_days_interval row;
     Detail.urgency_score := ProductAnalytics.repurchase_urgency row;
     Detail.confidence :=
       if ProductAnalytics.probability_is_null analytics
       then None
       else Some (ProductAnalytics.repurchase_probability row);
     Detail.is_seasonal := ProductAnalytics.is_seasonal row;
     Detail.next_purchase_estimate :=
       match ProductAnalytics.estimated_next_purchase_date row with
       | Some d => Some (isoformat d)
       | None => None
       end;
     Detail.status := ProductAnalytics.get_urgency_status row;
     Detail.recommendation := ProductAnalytics.get_prediction_message row |}.

(** The entry "status" is the one that can raise; the dict is returned
    only when it did not. *)
Definition get_item_prediction (user_id : Z) (product_name : string)
    (session : option Session) : outcome (option Detail.t) :=
  let session := session_or session AsyncSessionLocal in
  try_except
    (analytics <- select_item session user_id product_name ;;
     match analytics with
     | None => ret None
     | Some analytics =>
         ProductAnalytics.get_urgency_status_unchecked analytics ;;;
         ret (Some (detail_of analytics))
     end)
    (fun _ => ret None).

End Views.

End PurchasePredictionService.

(* ================================================================== *)
(** ** Sample data *)
(* ================================================================== *)

Module Sample.

Import PurchaseAnalyticsService PurchasePredictionService.

Definition purchase (item : string) (t : datetime) : PurchaseRecord.t :=
  {| PurchaseRecord.user_id := 1;
     PurchaseRecord.item_name := item;
     PurchaseRecord.purchase_date := t |}.

(** A session that answers every statement: the purchases of the one
    product asked for, the number of purchase dates, the stored row if
    any, and the ranked rows. *)
Definition session (purchases : list PurchaseRecord.t) (dates : option Z)
    (found : option ProductAnalytics.t) (ranked : list ProductAnalytics.t)
    : Session :=
  {| select_purchases := fun _ _ => Returned purchases;
     count_purchase_dates := fun _ => Returned dates;
     select_analytics := fun _ _ => Returned found;
     select_ranked := fun _ _ _ => Returned ranked;
     select_item :=
       fun _ _ => Returned (option_map ProductAnalytics.checked found);
     commit := Returned tt;
     rollback := Returned tt |}.

(** A session whose connection is lost: every statement raises. *)
Definition broken : Session :=
  {| select_purchases := fun _ _ => Raised (SQLAlchemyError "connection lost");
     count_purchase_dates := fun _ => Raised (SQLAlchemyError "connection lost");
     select_analytics := fun _ _ => Raised (SQLAlchemyError "connection lost");
     select_ranked := fun _ _ _ => Raised (SQLAlchemyError "connection lost");
     select_item := fun _ _ => Raised (SQLAlchemyError "connection lost");
     commit := Raised (SQLAlchemyError "connection lost");
     rollback := Returned tt |}.

(** Milk bought on days 0, 7 and 14. *)
Definition milk : list PurchaseRecord.t :=
  [purchase "Milk" (day 0); purchase "Milk" (day 7); purchase "Milk" (day 14)].

(** Bread bought at noon of day 0, at six in the morning of day 1 and at
    midnight of day 2: two gaps of 18 hours, hence of 0 whole days each,
    over a span of 36 hours, hence of 1 whole day. *)
Definition bread : list PurchaseRecord.t :=
  [purchase "Bread" (day 0 + 43200000000);
   purchase "Bread" (day 1 + 21600000000);
   purchase "Bread" (day 2)].

(** Eggs bought twice on the same shopping trip. *)
Definition eggs : list PurchaseRecord.t :=
  [purchase "Eggs" (day 3); purchase "Eggs" (day 3)].

(** Rice bought twice on one trip and once more a week later. *)
Definition rice : list PurchaseRecord.t :=
  [purchase "Rice" (day 0); purchase "Rice" (day 0); purchase "Rice" (day 7)].

(** Soap bought once. *)
Definition soap : list PurchaseRecord.t := [purchase "Soap" (day 0)].

(** A stored row: bought every 7.5 days on average, urgency 120, never
    dated since. *)
Definition stale_row : ProductAnalytics.t :=
  {| ProductAnalytics.user_id := 1;
     ProductAnalytics.product_name := "Tea";
     ProductAnalytics.total_purchases := Some 3;
     ProductAnalytics.last_purchase_date := Some (day 15);
     ProductAnalytics.avg_days_between_purchases := Some (15 # 2)%Q;
     ProductAnalytics.days_since_last_purchase := None;
     ProductAnalytics.min_days_interval := Some 7%Q;
     ProductAnalytics.max_days_interval := Some 8%Q;
     ProductAnalytics.repurchase_urgency := 120%Q;
     ProductAnalytics.repurchase_probability := 60%Q;
     ProductAnalytics.is_seasonal := Some false;
     ProductAnalytics.estimated_next_purchase_date := None;
     ProductAnalytics.last_analyzed_at := None |}.

(** A row that holds nothing but an urgency. *)
Definition with_urgency (u : Q) : ProductAnalytics.t :=
  {| ProductAnalytics.user_id := 1;
     ProductAnalytics.product_name := "Tea";
     ProductAnalytics.total_purchases := None;
     ProductAnalytics.last_purchase_date := None;
     ProductAnalytics.avg_days_between_purchases := None;
     ProductAnalytics.days_since_last_purchase := None;
     ProductAnalytics.min_days_interval := None;
     ProductAnalytics.max_days_interval := None;
     ProductAnalytics.repurchase_urgency := u;
     ProductAnalytics.repurchase_probability := 0%Q;
     ProductAnalytics.is_seasonal := None;
     ProductAnalytics.estimated_next_purchase_date := None;
     ProductAnalytics.last_analyzed_at := None |}.

(** The sessions of the examples: the history of one product, the count
    of distinct purchase dates, no row stored yet. *)
Definition milk_session : Session := session milk (Some 3) None [].
Definition bread_session : Session := session bread (Some 3) None [].
Definition eggs_session : Session := session eggs (Some 0) None [].
Definition rice_session : Session := session rice (Some 2) None [].
Definition soap_session : Session := session soap (Some 1) None [].
Definition tea_session : Session := session [] None None [stale_row].

(** Five ranked rows, of urgency 120, 95, 88, 72 and 40. *)
Definition ranked_rows : list ProductAnalytics.t :=
  [stale_row; with_urgency 95; with_urgency 88; with_urgency 72;
   with_urgency 40].

Definition ranked_session : Session := session [] None None ranked_rows.

(** A session that loses its connection at the commit and cannot roll
    back either. *)
Definition stuck : Session :=
  {| select_purchases := fun _ _ => Returned milk;
     count_purchase_dates := fun _ => Returned (Some 3);
     select_analytics := fun _ _ => Returned None;
     select_ranked := fun _ _ _ => Returned [];
     select_item := fun _ _ => Returned None;
     commit := Raised (SQLAlchemyError "connection lost");
     rollback := Raised (SQLAlchemyError "cannot roll back") |}.

(** A session that ranks the tea row and finds it by name. *)
Definition tea_found_session : Session :=
  session [] None (Some stale_row) [stale_row].

(** Wine bought on 2024-01-01 and again on 7000-01-01: the next purchase
    would fall past the year 9999. *)
Definition wine : list PurchaseRecord.t :=
  [purchase "Wine" (day 738885); purchase "Wine" (day 2556332)].

Definition wine_session : Session := session wine (Some 2) None [].

(** The wine session with a rollback that fails. *)
Definition wine_stuck : Session :=
  {| select_purchases := fun _ _ => Returned wine;
     count_purchase_dates := fun _ => Returned (Some 2);
     select_analytics := fun _ _ => Returned None;
     select_ranked := fun _ _ _ => Returned [];
     select_item := fun _ _ => Returned None;
     commit := Returned tt;
     rollback := Raised (SQLAlchemyError "cannot roll back") |}.

(** A session that finds the tea row with NULL in its urgency column. *)
Definition null_urgency_session : Session :=
  {| select_purchases := fun _ _ => Returned [];
     count_purchase_dates := fun _ => Returned None;
     select_analytics := fun _ _ => Returned None;
     select_ranked := fun _ _ _ => Returned [];
     select_item :=
       fun _ _ =>
         Returned (Some {| ProductAnalytics.columns := stale_row;
                           ProductAnalytics.urgency_is_null := true;
                           ProductAnalytics.probability_is_null := false |});
     commit := Returned tt;
     rollback := Returned tt |}.

(** The textual rendering used in examples. *)
Definition iso (t : datetime) : string := digits (days t).

End Sample.


(* ================================================================== *)
(** ** Vocabulary of the statements *)
(* ================================================================== *)

Module Spec.

Import PurchaseAnalyticsService.

(** The session answers the four statements of [update_analytics] for
    this user and product, and the commit goes through. *)
Record answers (s : Session) (user_id : Z) (product_name : string)
    (purchases : list PurchaseRecord.t) (dates : option Z)
    (found : option ProductAnalytics.t) : Prop := {
  answers_purchases :
    select_purchases s user_id product_name = Returned purchases;
  answers_dates : count_purchase_dates s user_id = Returned dates;
  answers_found : select_analytics s user_id product_name = Returned found;
  answers_commit : commit s = Returned tt
}.

Definition dates_of (purchases : list PurchaseRecord.t) : list datetime :=
  map PurchaseRecord.purchase_date purchases.

(** The events come in ascending order of time. *)
Definition ascending (purchases : list PurchaseRecord.t) : Prop :=
  Sorted.Sorted Z.le (dates_of purchases).

(** The earliest and the latest timestamp of a history. *)
Definition first_ts (purchases : list PurchaseRecord.t) : datetime :=
  match dates_of purchases with
  | [] => 0
  | t :: ts => fold_left Z.min ts t
  end.

Definition last_ts (purchases : list PurchaseRecord.t) : datetime :=
  match dates_of purchases with
  | [] => 0
  | t :: ts => fold_left Z.max ts t
  end.

(** The mean of the consecutive gaps, each counted in whole days. *)
Definition gap_mean (purchases : list PurchaseRecord.t) : Q :=
  let total := fold_right Z.add 0 (intervals purchases) in
  let count := Z.of_nat (List.length (intervals purchases)) in
  (inject_Z total / inject_Z count)%Q.

(** What a prediction shows for a stored day count: 0 when the column is
    NULL or zero, the count cut to an integer otherwise. *)
Definition truncated_or_zero (stored : option Q) : Z :=
  match stored with
  | Some x => if Qeq_bool x 0 then 0 else trunc x
  | None => 0
  end.

(** The ranked rows come in descending order of urgency. *)
Definition descending (rows : list ProductAnalytics.t) : Prop :=
  Sorted.Sorted
    (fun a b =>
       (ProductAnalytics.repurchase_urgency b
        <= ProductAnalytics.repurchase_urgency a)%Q)
    rows.

(** The endpoints of a history as the code reads them, [purchases[0]]
    and [purchases[-1]], and the average it takes over the span. *)
Definition last_purchase (purchases : list PurchaseRecord.t) : datetime :=
  match purchases with
  | [] => 0
  | first :: _ => PurchaseRecord.purchase_date (last purchases first)
  end.

Definition first_purchase (purchases : list PurchaseRecord.t) : datetime :=
  match purchases with
  | [] => 0
  | first :: _ => PurchaseRecord.purchase_date first
  end.

Definition span_average (purchases : list PurchaseRecord.t) : option Q :=
  let n := Z.of_nat (List.length purchases) in
  if 1 <? n
  then
    let span := days (sub (last_purchase purchases) (first_purchase purchases)) in
    Some (inject_Z span / inject_Z (n - 1))%Q
  else None.

(** The estimate of the next purchase can be built: when there is an
    average and it is not zero, that many days, rounded to the
    microsecond, are a timedelta, and the last purchase plus this
    timedelta is a date of the years 1 to 9999. *)
Definition estimate_in_calendar (purchases : list PurchaseRecord.t) : Prop :=
  forall v,
    span_average purchases = Some v ->
    ~ (v == 0)%Q ->
    let step := round_half_even (v * inject_Z us_per_day)%Q in
    (- max_timedelta_days <= days step <= max_timedelta_days)
    /\ (datetime_min <= last_purchase purchases + step <= datetime_max).

(** Every timestamp of the history is a date of the years 1 to 9999. *)
Definition in_calendar (purchases : list PurchaseRecord.t) : Prop :=
  Forall (fun t => datetime_min <= t <= datetime_max) (dates_of purchases).

(** The row that [update_analytics] writes for a history, once the
    estimate [e] is built: the assignments of lines 123-132 on the row
    found, or on a new one. *)
Definition written_row (utcnow utcnow' : datetime) (user_id : Z)
    (product_name : string) (purchases : list PurchaseRecord.t)
    (dates : option Z) (found : option ProductAnalytics.t)
    (e : option datetime) : ProductAnalytics.t :=
  let n := Z.of_nat (List.length purchases) in
  let since := days (sub utcnow (last_purchase purchases)) in
  let urgency :=
    match span_average purchases with
    | Some v => if float_gt0 v then (inject_Z since / v * 100)%Q else 0%Q
    | None => 0%Q
    end in
  let probability :=
    (inject_Z n / inject_Z (opt_int_or dates 1) * 100)%Q in
  let row :=
    match found with
    | Some a => a
    | None => ProductAnalytics.new user_id product_name
    end in
  assign row n (last_purchase purchases) (span_average purchases) since
         (min_or_none (intervals purchases))
         (max_or_none (intervals purchases))
         urgency probability e utcnow'.

(** The session hands over a history whose estimate cannot be built. *)
Definition estimate_overflows (s : Session) (user_id : Z)
    (product_name : string) : Prop :=
  exists purchases,
    select_purchases s user_id product_name = Returned purchases
    /\ ~ estimate_in_calendar purchases.

(** The body of [update_analytics] meets an exception: the first
    statement raises, or there are purchases and one of the later
    statements or the commit raises. *)
Definition body_fails (s : Session) (user_id : Z) (product_name : string)
  : Prop :=
  (exists e, select_purchases s user_id product_name = Raised e)
  \/ ((exists p l, select_purchases s user_id product_name
                   = Returned (p :: l))
      /\ ((exists e, count_purchase_dates s user_id = Raised e)
          \/ (exists e, select_analytics s user_id product_name = Raised e)
          \/ (exists e, commit s = Raised e))).

(** The three tests of [get_shopping_summary], by name. *)
Definition is_urgent (p : PurchasePredictionService.Prediction) : bool :=
  float_ge (PurchasePredictionService.urgency p) 90.
Definition is_upcoming (p : PurchasePredictionService.Prediction) : bool :=
  float_ge (PurchasePredictionService.urgency p) 70
  && float_lt (PurchasePredictionService.urgency p) 90.
Definition is_optional (p : PurchasePredictionService.Prediction) : bool :=
  float_lt (PurchasePredictionService.urgency p) 70.

End Spec.

Import PurchaseAnalyticsService PurchasePredictionService Spec.

(** Case analysis on every outcome the goal still inspects. *)
Ltac case_outcomes :=
  repeat match goal with
         | |- context [match ?x with Returned _ => _ | Raised _ => _ end] =>
             destruct x
         end.

(* ================================================================== *)
(** ** Arithmetic of the runtime fragments *)
(* ================================================================== *)

Lemma Qeq_bool_inject_Z (n : Z) : Qeq_bool (inject_Z n) 0 = (n =? 0).
Proof.
  unfold Qeq_bool, inject_Z; simpl. rewrite Z.mul_1_r.
  destruct n; reflexivity.
Qed.

Lemma float_truthy_iff (x : Q) : float_truthy x = true <-> ~ (x == 0)%Q.
Proof.
  unfold float_truthy. rewrite negb_true_iff.
  split.
  - intros H E. apply Qeq_bool_iff in E. congruence.
  - intros H. destruct (Qeq_bool x 0) eqn:E; [|reflexivity].
    apply Qeq_bool_iff in E. contradiction.
Qed.

Lemma float_truthy_false_iff (x : Q) : float_truthy x = false <-> (x == 0)%Q.
Proof.
  unfold float_truthy. rewrite negb_false_iff. apply Qeq_bool_iff.
Qed.

Lemma float_gt0_iff (x : Q) : float_gt0 x = true <-> (0 < x)%Q.
Proof.
  unfold float_gt0. rewrite negb_true_iff.
  split.
  - intros H. apply Qnot_le_lt. intros L. apply Qle_bool_iff in L. congruence.
  - intros H. destruct (Qle_bool x 0) eqn:E; [|reflexivity].
    apply Qle_bool_iff in E. exfalso. exact (Qlt_not_le _ _ H E).
Qed.

Lemma float_gt0_false_iff (x : Q) : float_gt0 x = false <-> (x <= 0)%Q.
Proof.
  unfold float_gt0. rewrite negb_false_iff. apply Qle_bool_iff.
Qed.

Lemma float_ge_iff (x y : Q) : float_ge x y = true <-> (y <= x)%Q.
Proof. apply Qle_bool_iff. Qed.

Lemma float_ge_false_iff (x y : Q) : float_ge x y = false <-> (x < y)%Q.
Proof.
  unfold float_ge. split.
  - intros H. apply Qnot_le_lt. intros L. apply Qle_bool_iff in L. congruence.
  - intros H. destruct (Qle_bool y x) eqn:E; [|reflexivity].
    apply Qle_bool_iff in E. exfalso. exact (Qlt_not_le _ _ H E).
Qed.

Lemma truediv_returns (x y : Q) :
  ~ (y == 0)%Q -> truediv x y = Returned (x / y)%Q.
Proof.
  intros H. unfold truediv.
  destruct (Qeq_bool y 0) eqn:E; [|reflexivity].
  apply Qeq_bool_iff in E. contradiction.
Qed.

Lemma opt_int_or_nonzero (n : option Z) (d : Z) :
  d <> 0 -> opt_int_or n d <> 0.
Proof.
  intros Hd. unfold opt_int_or, int_truthy.
  destruct n as [v|]; [|exact Hd].
  destruct (v =? 0) eqn:E; simpl; [exact Hd|].
  apply Z.eqb_neq in E. exact E.
Qed.

Lemma opt_int_or_max (n : Z) : 0 <= n -> opt_int_or (Some n) 1 = Z.max n 1.
Proof.
  intros Hn. unfold opt_int_or, int_truthy.
  destruct (n =? 0) eqn:E; simpl.
  - apply Z.eqb_eq in E. subst n. reflexivity.
  - apply Z.eqb_neq in E. lia.
Qed.

(* ================================================================== *)
(** ** The blocks of [update_analytics] return *)
(* ================================================================== *)

Lemma avg_days_returns (n : Z) (t0 t1 : datetime) :
  avg_days n t0 t1 =
  Returned (if 1 <? n
            then Some (float_of_int (days (sub t1 t0))
                       / float_of_int (n - 1))%Q
            else None).
Proof.
  unfold avg_days. destruct (1 <? n) eqn:E; [|reflexivity].
  apply Z.ltb_lt in E.
  rewrite truediv_returns; [reflexivity|].
  unfold float_of_int. intros H.
  apply Qeq_bool_iff in H. rewrite Qeq_bool_inject_Z in H.
  apply Z.eqb_eq in H. lia.
Qed.

Lemma urgency_score_returns (d : Z) (avg : option Q) :
  urgency_score d avg =
  Returned (match avg with
            | Some v =>
                if float_gt0 v then (float_of_int d / v * 100)%Q else 0%Q
            | None => 0%Q
            end).
Proof.
  unfold urgency_score. destruct avg as [v|]; [|reflexivity].
  destruct (float_gt0 v) eqn:G.
  - assert (T : float_truthy v = true).
    { apply float_truthy_iff. apply float_gt0_iff in G.
      intros E. rewrite E in G. discriminate. }
    rewrite T. simpl.
    rewrite truediv_returns; [reflexivity|].
    apply float_truthy_iff. exact T.
  - rewrite andb_false_r. reflexivity.
Qed.

Lemma repurchase_probability_returns (n : Z) (dates : option Z) :
  PurchaseAnalyticsService.repurchase_probability n dates =
  Returned (float_of_int n / float_of_int (opt_int_or dates 1) * 100)%Q.
Proof.
  unfold PurchaseAnalyticsService.repurchase_probability.
  rewrite truediv_returns; [reflexivity|].
  unfold float_of_int. intros H.
  apply Qeq_bool_iff in H. rewrite Qeq_bool_inject_Z in H.
  apply Z.eqb_eq in H. revert H. apply opt_int_or_nonzero. discriminate.
Qed.

(* ================================================================== *)
(** ** First and last of an ascending history *)
(* ================================================================== *)

Lemma purchase_date_last (l : list PurchaseRecord.t) (d : PurchaseRecord.t) :
  PurchaseRecord.purchase_date (last l d) =
  last (dates_of l) (PurchaseRecord.purchase_date d).
Proof.
  induction l as [|p l IH]; [reflexivity|].
  destruct l as [|q l]; [reflexivity|].
  exact IH.
Qed.

Lemma fold_min_head (t : Z) (ts : list Z) :
  Forall (Z.le t) ts -> fold_left Z.min ts t = t.
Proof.
  induction 1 as [|x ts Hx _ IH]; simpl; [reflexivity|].
  rewrite Z.min_l by exact Hx. exact IH.
Qed.

Lemma last_cons_default {A} (l : list A) :
  forall x d d', last (x :: l) d = last (x :: l) d'.
Proof.
  induction l as [|y l IH]; intros x d d'; [reflexivity|].
  exact (IH y d d').
Qed.

Lemma fold_max_last (ts : list Z) :
  forall t, StronglySorted Z.le (t :: ts) ->
            fold_left Z.max ts t = last (t :: ts) t.
Proof.
  induction ts as [|x ts IH]; intros t H; [reflexivity|].
  inversion H as [|? ? Hs Hall]; subst.
  inversion Hall as [|? ? Htx _]; subst.
  cbn [fold_left]. rewrite Z.max_r by exact Htx.
  rewrite (IH x Hs).
  change (last (t :: x :: ts) t) with (last (x :: ts) t).
  apply last_cons_default.
Qed.

Lemma ascending_first_ts (p : PurchaseRecord.t) (l : list PurchaseRecord.t) :
  ascending (p :: l) -> first_ts (p :: l) = PurchaseRecord.purchase_date p.
Proof.
  unfold ascending, first_ts. cbn [dates_of map]. intros H.
  apply Sorted_StronglySorted in H; [|exact Z.le_trans].
  inversion H; subst. apply fold_min_head. assumption.
Qed.

Lemma ascending_last_ts (p : PurchaseRecord.t) (l : list PurchaseRecord.t) :
  ascending (p :: l) ->
  last_ts (p :: l) = PurchaseRecord.purchase_date (last (p :: l) p).
Proof.
  unfold ascending, last_ts. intros H.
  rewrite purchase_date_last. cbn [dates_of map] in *.
  apply Sorted_StronglySorted in H; [|exact Z.le_trans].
  apply fold_max_last. exact H.
Qed.

(* ================================================================== *)
(** ** The estimate and the calendar *)
(* ================================================================== *)

Lemma timedelta_of_days_returned (x : Q) (d : timedelta) :
  timedelta_of_days x = Returned d
  <-> (d = round_half_even (x * inject_Z us_per_day)%Q
       /\ - max_timedelta_days <= days d <= max_timedelta_days).
Proof.
  unfold timedelta_of_days.
  set (r := round_half_even _).
  destruct ((- max_timedelta_days <=? days r)
            && (days r <=? max_timedelta_days)) eqn:B.
  - apply andb_true_iff in B. destruct B as [B1 B2].
    apply Z.leb_le in B1. apply Z.leb_le in B2.
    split.
    + intros [= <-]. split; [reflexivity|lia].
    + intros [-> _]. reflexivity.
  - split; [discriminate|]. intros [-> H]. exfalso.
    apply andb_false_iff in B. destruct B as [B|B]; apply Z.leb_gt in B; lia.
Qed.

Lemma add_returned (t : datetime) (d : timedelta) (r : datetime) :
  add t d = Returned r
  <-> (r = t + d /\ datetime_min <= t + d <= datetime_max).
Proof.
  unfold add.
  destruct ((datetime_min <=? t + d) && (t + d <=? datetime_max)) eqn:B.
  - apply andb_true_iff in B. destruct B as [B1 B2].
    apply Z.leb_le in B1. apply Z.leb_le in B2.
    split.
    + intros [= <-]. split; [reflexivity|lia].
    + intros [-> _]. reflexivity.
  - split; [discriminate|]. intros [-> H]. exfalso.
    apply andb_false_iff in B. destruct B as [B|B]; apply Z.leb_gt in B; lia.
Qed.

(** What [estimated_next] returns, when it returns. *)
Lemma estimated_next_returned (t1 : datetime) (avg : option Q)
    (e : option datetime) :
  PurchaseAnalyticsService.estimated_next t1 avg = Returned e
  <-> match avg with
      | Some v =>
          if float_truthy v
          then exists step t,
                 timedelta_of_days v = Returned step
                 /\ add t1 step = Returned t /\ e = Some t
          else e = None
      | None => e = None
      end.
Proof.
  unfold PurchaseAnalyticsService.estimated_next.
  destruct avg as [v|]; [destruct (float_truthy v)|].
  - destruct (timedelta_of_days v) as [step|x] eqn:Hs; cbn [bind].
    + destruct (add t1 step) as [t|x] eqn:Ht; cbn [bind ret].
      * split.
        -- intros [= <-]. exists step, t. auto.
        -- intros [s' [t' [[= <-] [Ht' ->]]]].
           rewrite Ht in Ht'. injection Ht' as <-. reflexivity.
      * split; [discriminate|].
        intros [s' [t' [[= <-] [H _]]]]. rewrite Ht in H. discriminate H.
    + split; [discriminate|]. intros [s' [t' [H _]]]. discriminate H.
  - cbn [ret]. split; [intros [= <-]; reflexivity|intros ->; reflexivity].
  - cbn [ret]. split; [intros [= <-]; reflexivity|intros ->; reflexivity].
Qed.

(** The estimate can be built exactly when [estimated_next] returns. *)
Lemma estimate_in_calendar_iff (purchases : list PurchaseRecord.t) :
  estimate_in_calendar purchases
  <-> exists e,
        PurchaseAnalyticsService.estimated_next
          (last_purchase purchases) (span_average purchases) = Returned e.
Proof.
  unfold estimate_in_calendar.
  destruct (span_average purchases) as [v|]; cbv zeta.
  - destruct (float_truthy v) eqn:T.
    + split.
      * intros H. destruct (H v eq_refl) as [Hd Hc].
        { apply float_truthy_iff. exact T. }
        eexists. apply estimated_next_returned. rewrite T.
        eexists. eexists. split; [|split; [|reflexivity]].
        -- apply timedelta_of_days_returned. split; [reflexivity|exact Hd].
        -- apply add_returned. split; [reflexivity|exact Hc].
      * intros [e He] v' [= <-] _.
        apply estimated_next_returned in He. rewrite T in He.
        destruct He as [step [t [Hs [Ht _]]]].
        apply timedelta_of_days_returned in Hs. destruct Hs as [-> Hd].
        apply add_returned in Ht. destruct Ht as [_ Hc].
        split; assumption.
    + split.
      * intros _. exists None. apply estimated_next_returned.
        rewrite T. reflexivity.
      * intros _ v' [= <-] Hnz. apply float_truthy_iff in Hnz. congruence.
  - split.
    + intros _. exists None. reflexivity.
    + intros _ v' H. discriminate H.
Qed.

(** On a given history the condition is settled by running the block. *)
Ltac built_by_computation :=
  apply estimate_in_calendar_iff; eexists; reflexivity.

(** Without an average, or with an average of zero, there is nothing to
    build. *)
Lemma no_average_in_calendar (purchases : list PurchaseRecord.t) :
  (List.length purchases <= 1)%nat -> estimate_in_calendar purchases.
Proof.
  intros H v Hv. unfold span_average in Hv.
  destruct (1 <? Z.of_nat (List.length purchases)) eqn:L; [|discriminate].
  apply Z.ltb_lt in L. lia.
Qed.

(* ================================================================== *)
(** ** [update_analytics] on a session that answers *)
(* ================================================================== *)

Section Recompute.

Variable AsyncSessionLocal : Session.
Variables (utcnow utcnow' : datetime).
Variables (user_id : Z) (product_name : string) (session : option Session).
Variables (purchases : list PurchaseRecord.t) (dates : option Z).
Variable found : option ProductAnalytics.t.

Hypothesis Hanswers :
  answers (session_or session AsyncSessionLocal) user_id product_name
          purchases dates found.

(** With at least one purchase, every block before the estimate returns
    its value; the estimate decides between the row and the handler. *)
Lemma update_analytics_answered :
  purchases <> [] ->
  update_analytics AsyncSessionLocal utcnow utcnow' user_id product_name
                   session =
  match PurchaseAnalyticsService.estimated_next
          (last_purchase purchases) (span_average purchases) with
  | Returned e =>
      Returned (Some (written_row utcnow utcnow' user_id product_name
                                  purchases dates found e))
  | Raised _ =>
      rollback (session_or session AsyncSessionLocal) ;;; ret None
  end.
Proof.
  intros Hne. destruct Hanswers as [Hp Hd Hf Hc].
  unfold update_analytics. rewrite Hp. cbn [bind].
  unfold written_row, span_average, last_purchase, first_purchase.
  destruct purchases as [|first rest]; [contradiction|].
  rewrite avg_days_returns. cbn [bind].
  rewrite urgency_score_returns. cbn [bind].
  rewrite Hd. cbn [bind].
  rewrite repurchase_probability_returns. cbn [bind].
  unfold float_of_int.
  destruct (PurchaseAnalyticsService.estimated_next _ _) as [e|x];
    cbn [bind try_except]; [|reflexivity].
  rewrite Hf. cbn [bind]. rewrite Hc. reflexivity.
Qed.

(** The call returns the row when the estimate can be built. *)
Lemma update_analytics_returns (e : option datetime) :
  purchases <> [] ->
  PurchaseAnalyticsService.estimated_next
    (last_purchase purchases) (span_average purchases) = Returned e ->
  update_analytics AsyncSessionLocal utcnow utcnow' user_id product_name
                   session =
  Returned (Some (written_row utcnow utcnow' user_id product_name
                              purchases dates found e)).
Proof.
  intros Hne He. rewrite (update_analytics_answered Hne), He. reflexivity.
Qed.

(** No purchase: nothing is computed and nothing is written. *)
Lemma update_analytics_no_purchase :
  purchases = [] ->
  update_analytics AsyncSessionLocal utcnow utcnow' user_id product_name
                   session = Returned None.
Proof.
  intros E. destruct Hanswers as [Hp _ _ _].
  unfold update_analytics. rewrite Hp, E. reflexivity.
Qed.

(** A row returned is the row written, with an estimate that was
    built. *)
Lemma update_analytics_row (a : ProductAnalytics.t) :
  update_analytics AsyncSessionLocal utcnow utcnow' user_id product_name
                   session = Returned (Some a) ->
  purchases <> []
  /\ exists e,
       PurchaseAnalyticsService.estimated_next
         (last_purchase purchases) (span_average purchases) = Returned e
       /\ a = written_row utcnow utcnow' user_id product_name purchases
                          dates found e.
Proof.
  intros H.
  assert (Hne : purchases <> []).
  { intros E. rewrite (update_analytics_no_purchase E) in H.
    discriminate H. }
  split; [exact Hne|].
  rewrite (update_analytics_answered Hne) in H.
  destruct (PurchaseAnalyticsService.estimated_next _ _) as [e|x].
  - exists e. split; [reflexivity|]. injection H as <-. reflexivity.
  - destruct (rollback _); discriminate H.
Qed.

End Recompute.

(** On an ascending history the endpoints the code reads are the earliest
    and the latest timestamp. *)
Lemma ascending_endpoints (purchases : list PurchaseRecord.t) :
  purchases <> [] ->
  ascending purchases ->
  first_purchase purchases = first_ts purchases
  /\ last_purchase purchases = last_ts purchases.
Proof.
  intros Hne Hasc. destruct purchases as [|p l]; [contradiction|].
  unfold first_purchase, last_purchase.
  rewrite (ascending_first_ts _ _ Hasc), (ascending_last_ts _ _ Hasc).
  split; reflexivity.
Qed.

(* ================================================================== *)
(** ** Properties of [update_analytics] *)
(* ================================================================== *)

Section Analytics.

Variable AsyncSessionLocal : Session.
Variables (utcnow utcnow' : datetime).
Variables (user_id : Z) (product_name : string) (session : option Session).
Variables (purchases : list PurchaseRecord.t) (dates : option Z).
Variable found : option ProductAnalytics.t.

Hypothesis Hanswers :
  answers (session_or session AsyncSessionLocal) user_id product_name
          purchases dates found.

(** C1.  On an ascending history of n >= 2 purchases the average that
    lines 66-70 compute is the whole days between the earliest and the
    latest purchase divided by n - 1, and it is the average interval of
    the row that the call returns when the estimate can be built. *)
Theorem avg_interval_is_span_average :
  ascending purchases ->
  (2 <= List.length purchases)%nat ->
  avg_days (Z.of_nat (List.length purchases)) (first_purchase purchases)
           (last_purchase purchases)
  = Returned
      (Some (float_of_int (days (sub (last_ts purchases)
                                     (first_ts purchases)))
             / float_of_int (Z.of_nat (List.length purchases) - 1))%Q)
  /\ (estimate_in_calendar purchases ->
      exists a,
        update_analytics AsyncSessionLocal utcnow utcnow' user_id
                         product_name session = Returned (Some a)
        /\ ProductAnalytics.avg_days_between_purchases a =
           Some (float_of_int (days (sub (last_ts purchases)
                                         (first_ts purchases)))
                 / float_of_int (Z.of_nat (List.length purchases) - 1))%Q).
Proof.
  intros Hasc Hlen.
  assert (Hne : purchases <> []).
  { intros E. rewrite E in Hlen. simpl in Hlen. lia. }
  assert (L : (1 <? Z.of_nat (List.length purchases)) = true).
  { apply Z.ltb_lt. lia. }
  destruct (ascending_endpoints purchases Hne Hasc) as [Ef El].
  split.
  - rewrite avg_days_returns, L, Ef, El. reflexivity.
  - intros Hcal.
    apply estimate_in_calendar_iff in Hcal. destruct Hcal as [e He].
    eexists. split.
    + exact (update_analytics_returns _ _ _ _ _ _ _ _ _ Hanswers e Hne He).
    + unfold written_row.
      cbn [assign ProductAnalytics.avg_days_between_purchases].
      unfold span_average. rewrite L, Ef, El. reflexivity.
Qed.

(** C8.  On a history of exactly one purchase the call returns a row
    without average, minimum and maximum interval and without estimate,
    and with urgency 0. *)
Theorem single_purchase_has_no_baseline (p : PurchaseRecord.t) :
  purchases = [p] ->
  exists a,
    update_analytics AsyncSessionLocal utcnow utcnow' user_id product_name
                     session = Returned (Some a)
    /\ ProductAnalytics.avg_days_between_purchases a = None
    /\ ProductAnalytics.min_days_interval a = None
    /\ ProductAnalytics.max_days_interval a = None
    /\ ProductAnalytics.estimated_next_purchase_date a = None
    /\ ProductAnalytics.repurchase_urgency a = 0%Q.
Proof.
  intros E.
  assert (Hne : purchases <> []) by (rewrite E; discriminate).
  assert (He : PurchaseAnalyticsService.estimated_next
                 (last_purchase purchases) (span_average purchases)
               = Returned None) by (rewrite E; reflexivity).
  eexists. split.
  - exact (update_analytics_returns _ _ _ _ _ _ _ _ _ Hanswers None Hne He).
  - rewrite E. cbn. repeat split; reflexivity.
Qed.

(** C6.  With [occasions >= 0] distinct purchase dates counted, the
    division of the probability block is by [max occasions 1], which is
    not zero: the block returns the number of purchases over it, times
    100, and that is the probability of the row the call returns when the
    estimate can be built. *)
Theorem repurchase_probability_guarded (occasions : Z) :
  purchases <> [] ->
  dates = Some occasions ->
  0 <= occasions ->
  Z.max occasions 1 <> 0
  /\ PurchaseAnalyticsService.repurchase_probability
       (Z.of_nat (List.length purchases)) dates
     = Returned (float_of_int (Z.of_nat (List.length purchases))
                 / float_of_int (Z.max occasions 1) * 100)%Q
  /\ (estimate_in_calendar purchases ->
      exists a,
        update_analytics AsyncSessionLocal utcnow utcnow' user_id
                         product_name session = Returned (Some a)
        /\ ProductAnalytics.total_purchases a =
           Some (Z.of_nat (List.length purchases))
        /\ ProductAnalytics.repurchase_probability a =
           (float_of_int (Z.of_nat (List.length purchases))
            / float_of_int (Z.max occasions 1) * 100)%Q).
Proof.
  intros Hne Hd Hocc. split; [lia|]. split.
  - rewrite repurchase_probability_returns, Hd, (opt_int_or_max _ Hocc).
    reflexivity.
  - intros Hcal.
    apply estimate_in_calendar_iff in Hcal. destruct Hcal as [e He].
    eexists. split.
    + exact (update_analytics_returns _ _ _ _ _ _ _ _ _ Hanswers e Hne He).
    + unfold written_row.
      cbn [assign ProductAnalytics.total_purchases
           ProductAnalytics.repurchase_probability].
      rewrite Hd, (opt_int_or_max _ Hocc). split; reflexivity.
Qed.



End Analytics.

(* ================================================================== *)
(** ** Properties of the presentation methods and of the ranking *)
(* ================================================================== *)

(** C7.  The status label of a row is decided by its urgency alone, each
    tier closed below and open above: OVERDUE from 100, URGENT on [85,100),
    SOON on [70,85), UPCOMING on [50,70), OPTIONAL below 50. *)
Theorem urgency_status_tiers (a : ProductAnalytics.t) :
  let u := ProductAnalytics.repurchase_urgency a in
  let label := ProductAnalytics.get_urgency_status a in
  ((100 <= u)%Q -> label = "🔴 OVERDUE"%string)
  /\ ((85 <= u)%Q /\ (u < 100)%Q -> label = "🟠 URGENT"%string)
  /\ ((70 <= u)%Q /\ (u < 85)%Q -> label = "🟡 SOON"%string)
  /\ ((50 <= u)%Q /\ (u < 70)%Q -> label = "🟢 UPCOMING"%string)
  /\ ((u < 50)%Q -> label = "⚪ OPTIONAL"%string).
Proof.
  cbv zeta. unfold ProductAnalytics.get_urgency_status.
  set (u := ProductAnalytics.repurchase_urgency a). clearbody u.
  destruct (float_ge u 100) eqn:H100;
    [apply float_ge_iff in H100 | apply float_ge_false_iff in H100];
  (destruct (float_ge u 85) eqn:H85;
    [apply float_ge_iff in H85 | apply float_ge_false_iff in H85]);
  (destruct (float_ge u 70) eqn:H70;
    [apply float_ge_iff in H70 | apply float_ge_false_iff in H70]);
  (destruct (float_ge u 50) eqn:H50;
    [apply float_ge_iff in H50 | apply float_ge_false_iff in H50]);
  repeat split; intros; solve [reflexivity | exfalso; lra].
Qed.

(** The labels at and just below each threshold. *)
Lemma urgency_status_at_thresholds :
  map (fun u => ProductAnalytics.get_urgency_status (Sample.with_urgency u))
      [100; 99999 # 1000; 85; 84999 # 1000; 70; 69999 # 1000; 50;
       49999 # 1000]%Q
  = ["🔴 OVERDUE"; "🟠 URGENT"; "🟠 URGENT"; "🟡 SOON"; "🟡 SOON";
     "🟢 UPCOMING"; "🟢 UPCOMING"; "⚪ OPTIONAL"]%string.
Proof. reflexivity. Qed.

Section Ranking.

Variable AsyncSessionLocal : Session.
Variable isoformat : datetime -> string.
Variables (user_id : Z) (urgency_threshold : Q) (limit : Z).
Variable session : option Session.

(** C9.  When the ranking query raises, whatever the exception, the call
    returns the empty list. *)
Theorem ranking_failure_gives_empty_list (e : exn) :
  select_ranked (session_or session AsyncSessionLocal) user_id
                urgency_threshold limit = Raised e ->
  get_predicted_purchases AsyncSessionLocal isoformat user_id
                          urgency_threshold limit session = Returned [].
Proof.
  intros H. unfold get_predicted_purchases. rewrite H. reflexivity.
Qed.

(** C10.  Each prediction is built from one ranked row, in order, and its
    [days_since_last] and [avg_interval] are integers: 0 when the stored
    column is NULL or zero, the stored value cut towards zero otherwise. *)
Theorem prediction_day_counts_are_integers
    (rows : list ProductAnalytics.t) :
  select_ranked (session_or session AsyncSessionLocal) user_id
                urgency_threshold limit = Returned rows ->
  exists predictions,
    get_predicted_purchases AsyncSessionLocal isoformat user_id
                            urgency_threshold limit session
      = Returned predictions
    /\ Forall2
         (fun a p =>
            days_since_last p =
              truncated_or_zero (ProductAnalytics.days_since_last_purchase a)
            /\ avg_interval p =
              truncated_or_zero
                (ProductAnalytics.avg_days_between_purchases a))
         rows predictions.
Proof.
  intros H. exists (map (prediction_of isoformat) rows). split.
  { unfold get_predicted_purchases. rewrite H. reflexivity. }
  clear H. induction rows as [|a l IH]; cbn [map]; constructor.
  - unfold prediction_of, truncated_or_zero, opt_float_or, float_truthy.
    cbn [days_since_last avg_interval].
    destruct (ProductAnalytics.days_since_last_purchase a) as [x|];
      [destruct (Qeq_bool x 0)|];
      (destruct (ProductAnalytics.avg_days_between_purchases a) as [y|];
       [destruct (Qeq_bool y 0)|]); split; reflexivity.
  - apply IH.
Qed.

End Ranking.

(* ================================================================== *)
(** ** [int] on floats is truncation *)
(* ================================================================== *)

Lemma trunc_floor (x : Q) : (0 <= x)%Q -> trunc x = Qfloor x.
Proof.
  destruct x as [n d]. unfold Qle, trunc, Qfloor; simpl. intros H.
  apply Z.quot_div_nonneg; lia.
Qed.

Lemma trunc_ceiling (x : Q) : (x <= 0)%Q -> trunc x = Qceiling x.
Proof.
  destruct x as [n d]. unfold Qle, trunc, Qceiling, Qfloor; simpl. intros H.
  replace n with (- - n) at 1 by lia.
  rewrite Z.quot_opp_l by lia.
  rewrite Z.quot_div_nonneg by lia. reflexivity.
Qed.

Lemma truncated_or_zero_trunc (stored : option Q) :
  truncated_or_zero stored =
  match stored with Some x => trunc x | None => 0 end.
Proof.
  destruct stored as [x|]; [|reflexivity]. unfold truncated_or_zero.
  destruct (Qeq_bool x 0) eqn:E; [|reflexivity].
  apply Qeq_bool_iff in E. destruct x as [n d].
  unfold Qeq in E; simpl in E. unfold trunc; simpl.
  assert (n = 0) by lia. subst n. reflexivity.
Qed.

(* ================================================================== *)
(** ** The extremes of the consecutive gaps *)
(* ================================================================== *)

Lemma min_is_lower_bound (l : list Z) :
  forall x, Py.min x l <= x /\ Forall (Z.le (Py.min x l)) l.
Proof.
  unfold Py.min. induction l as [|y l IH]; intros x; cbn [fold_left].
  - split; [lia|constructor].
  - destruct (IH (Z.min x y)) as [H1 H2]. split; [lia|].
    constructor; [lia|exact H2].
Qed.

Lemma max_is_upper_bound (l : list Z) :
  forall x, x <= Py.max x l /\ Forall (fun y => y <= Py.max x l) l.
Proof.
  unfold Py.max. induction l as [|y l IH]; intros x; cbn [fold_left].
  - split; [lia|constructor].
  - destruct (IH (Z.max x y)) as [H1 H2]. split; [lia|].
    constructor; [lia|exact H2].
Qed.

Lemma min_is_a_gap (l : list Z) : forall x, In (Py.min x l) (x :: l).
Proof.
  unfold Py.min. induction l as [|y l IH]; intros x; cbn [fold_left].
  - left. reflexivity.
  - destruct (IH (Z.min x y)) as [H|H].
    + rewrite <- H.
      destruct (Z.min_spec x y) as [[_ E]|[_ E]]; rewrite E.
      * left. reflexivity.
      * right. left. reflexivity.
    + right. right. exact H.
Qed.

Lemma max_is_a_gap (l : list Z) : forall x, In (Py.max x l) (x :: l).
Proof.
  unfold Py.max. induction l as [|y l IH]; intros x; cbn [fold_left].
  - left. reflexivity.
  - destruct (IH (Z.max x y)) as [H|H].
    + rewrite <- H.
      destruct (Z.max_spec x y) as [[_ E]|[_ E]]; rewrite E.
      * right. left. reflexivity.
      * left. reflexivity.
    + right. right. exact H.
Qed.

Lemma min_le_max (x : Z) (l : list Z) : Py.min x l <= Py.max x l.
Proof.
  pose proof (min_is_lower_bound l x) as [H1 _].
  pose proof (max_is_upper_bound l x) as [H2 _]. lia.
Qed.

(** Two purchases or more leave at least one gap. *)
Lemma intervals_length (purchases : list PurchaseRecord.t) :
  List.length (intervals purchases) = pred (List.length purchases).
Proof.
  destruct purchases as [|p l]; [reflexivity|]. cbn [intervals].
  revert p. induction l as [|q l IH]; intros p; [reflexivity|].
  cbn [intervals_from List.length]. rewrite (IH q). reflexivity.
Qed.

Section Extremes.

Variable AsyncSessionLocal : Session.
Variables (utcnow utcnow' : datetime).
Variables (user_id : Z) (product_name : string) (session : option Session).
Variables (purchases : list PurchaseRecord.t) (dates : option Z).
Variable found : option ProductAnalytics.t.

Hypothesis Hanswers :
  answers (session_or session AsyncSessionLocal) user_id product_name
          purchases dates found.

(** What the row holds of the extremes: each is written through
    [float(m) if m else None], so that an extreme of 0 days is left out. *)
Lemma interval_extremes_written :
  purchases <> [] ->
  estimate_in_calendar purchases ->
  exists a,
    update_analytics AsyncSessionLocal utcnow utcnow' user_id product_name
                     session = Returned (Some a)
    /\ ProductAnalytics.min_days_interval a =
       float_if_truthy (min_or_none (intervals purchases))
    /\ ProductAnalytics.max_days_interval a =
       float_if_truthy (max_or_none (intervals purchases)).
Proof.
  intros Hne Hcal.
  apply estimate_in_calendar_iff in Hcal. destruct Hcal as [e He].
  eexists. split.
  - exact (update_analytics_returns _ _ _ _ _ _ _ _ _ Hanswers e Hne He).
  - split; reflexivity.
Qed.

(** With two purchases or more both extremes of the gaps exist, are gaps,
    bound every gap, and are in order. *)
Lemma interval_extremes_exist :
  (2 <= List.length purchases)%nat ->
  exists lo hi,
    min_or_none (intervals purchases) = Some lo
    /\ max_or_none (intervals purchases) = Some hi
    /\ lo <= hi
    /\ In lo (intervals purchases)
    /\ In hi (intervals purchases)
    /\ Forall (fun g => lo <= g <= hi) (intervals purchases).
Proof.
  intros Hlen. pose proof (intervals_length purchases) as L.
  destruct (intervals purchases) as [|x l]; [simpl in L; lia|].
  exists (Py.min x l), (Py.max x l).
  split; [reflexivity|]. split; [reflexivity|].
  split; [apply min_le_max|].
  split; [apply min_is_a_gap|]. split; [apply max_is_a_gap|].
  destruct (min_is_lower_bound l x) as [Hx Hl].
  destruct (max_is_upper_bound l x) as [Hx' Hl'].
  constructor; [lia|].
  rewrite Forall_forall in *. intros g Hg.
  specialize (Hl g Hg). specialize (Hl' g Hg). cbv beta in Hl'. lia.
Qed.

End Extremes.

(** [float(m) if m else None] keeps every extreme but 0. *)
Lemma float_if_truthy_some (m : Z) :
  float_if_truthy (Some m) =
  if m =? 0 then None else Some (float_of_int m).
Proof.
  unfold float_if_truthy, int_truthy. destruct (m =? 0); reflexivity.
Qed.

(* ================================================================== *)
(** ** The guard of the prediction message *)
(* ================================================================== *)

Lemma prediction_message_cases (self : ProductAnalytics.t) :
  (forall avg since,
      ProductAnalytics.avg_days_between_purchases self = Some avg ->
      ProductAnalytics.days_since_last_purchase self = Some since ->
      ~ (avg == 0)%Q -> ~ (since == 0)%Q ->
      ProductAnalytics.get_prediction_message self =
        ("You usually buy " ++ ProductAnalytics.product_name self
         ++ " every " ++ format_0f avg ++ " days. Last purchase: "
         ++ format_0f since ++ " days ago.")%string)
  /\ (ProductAnalytics.avg_days_between_purchases self = None
      \/ ProductAnalytics.days_since_last_purchase self = None
      \/ (exists v, ProductAnalytics.avg_days_between_purchases self = Some v
                    /\ (v == 0)%Q)
      \/ (exists v, ProductAnalytics.days_since_last_purchase self = Some v
                    /\ (v == 0)%Q) ->
      ProductAnalytics.get_prediction_message self =
        ("Not enough data for " ++ ProductAnalytics.product_name self
         ++ " predictions yet.")%string).
Proof.
  unfold ProductAnalytics.get_prediction_message. split.
  - intros avg since -> -> Ha Hs.
    apply float_truthy_iff in Ha. apply float_truthy_iff in Hs.
    rewrite Ha, Hs. reflexivity.
  - intros [H|[H|[[v [H Hv]]|[v [H Hv]]]]]; rewrite H;
      try apply float_truthy_false_iff in Hv.
    + reflexivity.
    + destruct (ProductAnalytics.avg_days_between_purchases self);
        reflexivity.
    + rewrite Hv.
      destruct (ProductAnalytics.days_since_last_purchase self);
        reflexivity.
    + destruct (ProductAnalytics.avg_days_between_purchases self);
        [|reflexivity].
      rewrite Hv, andb_false_r. reflexivity.
Qed.

(* ================================================================== *)
(** ** The properties at work on the sample histories *)
(* ================================================================== *)

(** Milk on days 0, 7 and 14, read on day 21: the average is 14 days over
    2 gaps. *)
Lemma avg_interval_is_span_average_milk :
  exists a,
    update_analytics Sample.broken (day 21) (day 21) 1 "Milk"
                     (Some Sample.milk_session) = Returned (Some a)
    /\ ProductAnalytics.avg_days_between_purchases a = Some (14 # 2)%Q.
Proof.
  destruct (avg_interval_is_span_average Sample.broken (day 21) (day 21) 1
              "Milk" (Some Sample.milk_session) Sample.milk (Some 3) None)
    as [_ Hrow].
  - constructor; reflexivity.
  - repeat (constructor; try (vm_compute; discriminate)).
  - simpl. lia.
  - destruct Hrow as [a [Hrun Havg]]; [built_by_computation|].
    exists a. split; [exact Hrun|]. rewrite Havg. reflexivity.
Defined.

(** The span average is not the mean of the gaps: the bread history spans
    one whole day in two gaps of less than a day each. *)
Lemma span_average_differs_from_gap_mean :
  ascending Sample.bread
  /\ exists a v,
       update_analytics Sample.broken (day 21) (day 21) 1 "Bread"
                        (Some Sample.bread_session) = Returned (Some a)
       /\ ProductAnalytics.avg_days_between_purchases a = Some v
       /\ (v == 1 # 2)%Q
       /\ (gap_mean Sample.bread == 0)%Q.
Proof.
  split.
  - repeat (constructor; try (vm_compute; discriminate)).
  - eexists. eexists. split; [reflexivity|].
    split; [reflexivity|]. split; reflexivity.
Qed.

(** Soap bought once, read on day 30. *)
Lemma single_purchase_has_no_baseline_soap :
  exists a,
    update_analytics Sample.broken (day 30) (day 30) 1 "Soap"
                     (Some Sample.soap_session) = Returned (Some a)
    /\ ProductAnalytics.avg_days_between_purchases a = None
    /\ ProductAnalytics.min_days_interval a = None
    /\ ProductAnalytics.max_days_interval a = None
    /\ ProductAnalytics.estimated_next_purchase_date a = None
    /\ ProductAnalytics.repurchase_urgency a = 0%Q.
Proof.
  refine (single_purchase_has_no_baseline Sample.broken (day 30) (day 30) 1
            "Soap" (Some Sample.soap_session) Sample.soap (Some 1) None
            _ (Sample.purchase "Soap" (day 0)) _).
  - constructor; reflexivity.
  - reflexivity.
Defined.

(** Eggs bought twice while the count of purchase dates reads 0: the
    denominator is 1, the probability 200. *)
Lemma repurchase_probability_guarded_eggs :
  exists a,
    update_analytics Sample.broken (day 3) (day 3) 1 "Eggs"
                     (Some Sample.eggs_session) = Returned (Some a)
    /\ ProductAnalytics.total_purchases a = Some 2
    /\ (ProductAnalytics.repurchase_probability a == 200)%Q.
Proof.
  destruct (repurchase_probability_guarded Sample.broken (day 3) (day 3) 1
              "Eggs" (Some Sample.eggs_session) Sample.eggs (Some 0) None)
    with (occasions := 0) as [_ [_ Hrow]].
  - constructor; reflexivity.
  - discriminate.
  - reflexivity.
  - lia.
  - destruct Hrow as [a [Hrun [Htotal Hprob]]]; [built_by_computation|].
    exists a. split; [exact Hrun|]. split; [exact Htotal|].
    rewrite Hprob. reflexivity.
Defined.





(** C3 at a failing input: rice bought twice on one trip and again a week
    later.  The gaps are 0 and 7 days, their minimum is 0, and the row is
    written with the maximum alone. *)
Theorem zero_gap_minimum_is_dropped :
  intervals Sample.rice = [0; 7]
  /\ min_or_none (intervals Sample.rice) = Some 0
  /\ exists a,
       update_analytics Sample.broken (day 7) (day 7) 1 "Rice"
                        (Some Sample.rice_session) = Returned (Some a)
       /\ ProductAnalytics.min_days_interval a = None
       /\ ProductAnalytics.max_days_interval a = Some 7%Q.
Proof.
  split; [reflexivity|]. split; [reflexivity|].
  eexists. split; [reflexivity|]. split; reflexivity.
Qed.

(** The same on the eggs: one gap of 0 days, neither extreme written. *)
Lemma zero_gap_extremes_are_dropped :
  intervals Sample.eggs = [0]
  /\ exists a,
       update_analytics Sample.broken (day 3) (day 3) 1 "Eggs"
                        (Some Sample.eggs_session) = Returned (Some a)
       /\ ProductAnalytics.min_days_interval a = None
       /\ ProductAnalytics.max_days_interval a = None.
Proof.
  split; [reflexivity|].
  eexists. split; [reflexivity|]. split; reflexivity.
Qed.

(** C5 at a failing input: milk read three hours after its last purchase.
    Average and days since the last purchase are both present, the latter
    with value 0, and the message says there is not enough data. *)
Theorem purchase_today_reads_not_enough_data :
  exists a,
    update_analytics Sample.broken (day 14 + 10800000000)
                     (day 14 + 10800000000) 1 "Milk"
                     (Some Sample.milk_session) = Returned (Some a)
    /\ ProductAnalytics.avg_days_between_purchases a = Some (14 # 2)%Q
    /\ ProductAnalytics.days_since_last_purchase a = Some 0%Q
    /\ ProductAnalytics.get_prediction_message a =
       "Not enough data for Milk predictions yet."%string.
Proof.
  eexists. split; [reflexivity|].
  split; [reflexivity|]. split; reflexivity.
Qed.

(** The message when both columns are present and not zero. *)
Lemma prediction_message_with_history :
  exists a,
    update_analytics Sample.broken (day 21) (day 21) 1 "Milk"
                     (Some Sample.milk_session) = Returned (Some a)
    /\ ProductAnalytics.get_prediction_message a =
       "You usually buy Milk every 7 days. Last purchase: 7 days ago."%string.
Proof.
  eexists. split; reflexivity.
Qed.

(** A lost connection: the ranking returns the empty list. *)
Lemma ranking_failure_gives_empty_list_broken :
  get_predicted_purchases Sample.broken Sample.iso 1 0%Q 10 None
  = Returned [].
Proof.
  refine (ranking_failure_gives_empty_list Sample.broken Sample.iso 1 0%Q 10
            None (SQLAlchemyError "connection lost") _).
  reflexivity.
Defined.

(** The tea row, stored with an average of 7.5 days and no day count, is
    shown with 7 and 0. *)
Lemma prediction_day_counts_are_integers_tea :
  exists p,
    get_predicted_purchases Sample.broken Sample.iso 1 0%Q 10
                            (Some Sample.tea_session) = Returned [p]
    /\ days_since_last p = 0
    /\ avg_interval p = 7.
Proof.
  destruct (prediction_day_counts_are_integers Sample.broken Sample.iso 1
              0%Q 10 (Some Sample.tea_session) [Sample.stale_row])
    as [predictions [Hrun Hall]].
  - reflexivity.
  - inversion Hall as [|a p l l' [Hd Ha] Hnil]; subst.
    inversion Hnil; subst.
    exists p. split; [exact Hrun|]. split; [exact Hd|exact Ha].
Defined.

(* ================================================================== *)
(** ** Failures of the session in [update_analytics] *)
(* ================================================================== *)

Section Failures.

Variable AsyncSessionLocal : Session.
Variables (utcnow utcnow' : datetime).
Variables (user_id : Z) (product_name : string) (session : option Session).

(** The call, step by step: each statement, then the estimate, decide
    between going on and the handler; the divisions always return. *)
Lemma update_analytics_cases :
  let s := session_or session AsyncSessionLocal in
  let handler := rollback s ;;; ret None in
  update_analytics AsyncSessionLocal utcnow utcnow' user_id product_name
                   session =
  match select_purchases s user_id product_name with
  | Raised _ => handler
  | Returned [] => Returned None
  | Returned (p :: l) =>
      match count_purchase_dates s user_id with
      | Raised _ => handler
      | Returned d =>
          match PurchaseAnalyticsService.estimated_next
                  (last_purchase (p :: l)) (span_average (p :: l)) with
          | Raised _ => handler
          | Returned e =>
              match select_analytics s user_id product_name with
              | Raised _ => handler
              | Returned f =>
                  match commit s with
                  | Raised _ => handler
                  | Returned _ =>
                      Returned
                        (Some (written_row utcnow utcnow' user_id
                                           product_name (p :: l) d f e))
                  end
              end
          end
      end
  end.
Proof.
  cbv zeta. unfold update_analytics.
  destruct (select_purchases _ _ _) as [[|p l]|x]; try reflexivity.
  cbn [bind]. rewrite avg_days_returns. cbn [bind].
  rewrite urgency_score_returns. cbn [bind].
  destruct (count_purchase_dates _ _) as [d|x]; [|reflexivity].
  cbn [bind]. rewrite repurchase_probability_returns. cbn [bind].
  unfold written_row, span_average, last_purchase, first_purchase,
    float_of_int.
  destruct (PurchaseAnalyticsService.estimated_next _ _) as [e|x];
    [|reflexivity].
  cbn [bind].
  destruct (select_analytics _ _ _) as [f|x]; [|reflexivity].
  cbn [bind]. destruct (commit _) as [u|x]; reflexivity.
Qed.

(** The estimate of a history as an outcome. *)
Lemma estimate_raises_iff (purchases : list PurchaseRecord.t) :
  ~ estimate_in_calendar purchases
  <-> exists x,
        PurchaseAnalyticsService.estimated_next
          (last_purchase purchases) (span_average purchases) = Raised x.
Proof.
  rewrite estimate_in_calendar_iff.
  destruct (PurchaseAnalyticsService.estimated_next _ _) as [e|x].
  - split.
    + intros H. exfalso. apply H. exists e. reflexivity.
    + intros [x H]. discriminate H.
  - split.
    + intros _. exists x. reflexivity.
    + intros _ [e H]. discriminate H.
Qed.

(** When the body meets an exception, or the estimate cannot be built,
    the call ends in its handler. *)
Lemma update_failure_reaches_handler :
  body_fails (session_or session AsyncSessionLocal) user_id product_name
  \/ estimate_overflows (session_or session AsyncSessionLocal) user_id
                        product_name ->
  update_analytics AsyncSessionLocal utcnow utcnow' user_id product_name
                   session
  = (rollback (session_or session AsyncSessionLocal) ;;; ret None).
Proof.
  rewrite update_analytics_cases. cbv zeta.
  set (s := session_or session AsyncSessionLocal).
  intros [[[x Hp]|[[p [l Hp]] H]]|[purchases [Hp Hcal]]]; rewrite Hp.
  - reflexivity.
  - destruct H as [[x ->]|[[x H]|[x H]]]; [reflexivity| |];
      rewrite H; case_outcomes; reflexivity.
  - apply estimate_raises_iff in Hcal. destruct Hcal as [x Hx].
    destruct purchases as [|p l]; [discriminate Hx|].
    rewrite Hx. case_outcomes; reflexivity.
Qed.



(** X3.  A row is returned only after the commit went through, and then
    every statement had returned and there was a purchase to count. *)
Theorem update_returns_row_only_when_committed (a : ProductAnalytics.t) :
  update_analytics AsyncSessionLocal utcnow utcnow' user_id product_name
                   session = Returned (Some a) ->
  commit (session_or session AsyncSessionLocal) = Returned tt
  /\ exists purchases dates found,
       purchases <> []
       /\ answers (session_or session AsyncSessionLocal) user_id
                  product_name purchases dates found
       /\ ProductAnalytics.total_purchases a
          = Some (Z.of_nat (List.length purchases)).
Proof.
  intros H. rewrite update_analytics_cases in H. cbv zeta in H.
  set (s := session_or session AsyncSessionLocal) in *.
  assert (R : forall k : outcome (option ProductAnalytics.t),
             k = Returned None ->
             (rollback s ;;; k) <> Returned (Some a)).
  { intros k ->. destruct (rollback s); discriminate. }
  destruct (select_purchases s user_id product_name) as [[|p l]|x] eqn:Hp;
    [discriminate H| |exfalso; exact (R _ eq_refl H)].
  destruct (count_purchase_dates s user_id) as [d|x] eqn:Hd;
    [|exfalso; exact (R _ eq_refl H)].
  destruct (PurchaseAnalyticsService.estimated_next _ _) as [est|x] eqn:He;
    [|exfalso; exact (R _ eq_refl H)].
  destruct (select_analytics s user_id product_name) as [f|x] eqn:Hf;
    [|exfalso; exact (R _ eq_refl H)].
  destruct (commit s) as [[]|x] eqn:Hc; [|exfalso; exact (R _ eq_refl H)].
  split; [reflexivity|].
  exists (p :: l), d, f. split; [discriminate|].
  split; [constructor; assumption|].
  injection H as <-. reflexivity.
Qed.

End Failures.

(* ================================================================== *)
(** ** The span average against the gaps *)
(* ================================================================== *)

(** Whole days are superadditive, and lose at most one day per sum. *)
Lemma days_add_bounds (a b : timedelta) :
  days a + days b <= days (a + b) <= days a + days b + 1.
Proof.
  unfold days, us_per_day. Z.to_euclidean_division_equations. lia.
Qed.

Lemma days_monotone (a b : timedelta) : a <= b -> days a <= days b.
Proof.
  intros H. unfold days, us_per_day. apply Z.div_le_mono; lia.
Qed.

Lemma days_nonneg (a : timedelta) : 0 <= a -> 0 <= days a.
Proof.
  intros H. unfold days, us_per_day. apply Z.div_pos; lia.
Qed.

(** The whole days of the span lie between the sum of the gaps and that
    sum plus one day for every gap after the first. *)
Lemma span_between_gap_sums (rest : list PurchaseRecord.t) :
  forall prev,
    rest <> [] ->
    let gaps := intervals_from prev rest in
    let span :=
      days (sub (PurchaseRecord.purchase_date (last rest prev))
                (PurchaseRecord.purchase_date prev)) in
    fold_right Z.add 0 gaps <= span
    /\ span <= fold_right Z.add 0 gaps + Z.of_nat (List.length gaps) - 1.
Proof.
  induction rest as [|p rest IH]; intros prev Hne; [contradiction|].
  destruct rest as [|q rest].
  - cbn. lia.
  - specialize (IH p ltac:(discriminate)). cbv zeta in IH.
    cbv zeta.
    change (last (p :: q :: rest) prev) with (last (q :: rest) prev).
    rewrite (last_cons_default rest q prev p).
    cbn [intervals_from] in *. cbn [fold_right List.length] in *.
    set (tl := PurchaseRecord.purchase_date (last (q :: rest) p)) in *.
    set (gs := intervals_from q rest) in *.
    pose proof (days_add_bounds
                  (sub tl (PurchaseRecord.purchase_date p))
                  (sub (PurchaseRecord.purchase_date p)
                       (PurchaseRecord.purchase_date prev))) as B.
    replace (sub tl (PurchaseRecord.purchase_date p)
             + sub (PurchaseRecord.purchase_date p)
                   (PurchaseRecord.purchase_date prev))
      with (sub tl (PurchaseRecord.purchase_date prev)) in B
      by (unfold sub; lia).
    lia.
Qed.

Lemma gap_sum_bounds (lo hi : Z) (gaps : list Z) :
  Forall (fun g => lo <= g <= hi) gaps ->
  Z.of_nat (List.length gaps) * lo <= fold_right Z.add 0 gaps
  /\ fold_right Z.add 0 gaps <= Z.of_nat (List.length gaps) * hi.
Proof.
  induction 1 as [|g gaps Hg _ IH]; [cbn; lia|].
  cbn [fold_right List.length]. rewrite Nat2Z.inj_succ.
  rewrite !Z.mul_succ_l. lia.
Qed.

Section SpanAverage.

Variable AsyncSessionLocal : Session.
Variables (utcnow utcnow' : datetime).
Variables (user_id : Z) (product_name : string) (session : option Session).
Variables (purchases : list PurchaseRecord.t) (dates : option Z).
Variable found : option ProductAnalytics.t.

Hypothesis Hanswers :
  answers (session_or session AsyncSessionLocal) user_id product_name
          purchases dates found.


End SpanAverage.

(* ================================================================== *)
(** ** Signs and order on an ascending history *)
(* ================================================================== *)

Lemma round_half_even_nonneg (x : Q) : (0 <= x)%Q -> 0 <= round_half_even x.
Proof.
  intros H. unfold round_half_even.
  assert (F : 0 <= Qfloor x).
  { change 0 with (Qfloor 0). apply Qfloor_resp_le. exact H. }
  destruct (Qcompare _ _); [destruct (Z.even _)| |]; lia.
Qed.

Lemma intervals_from_nonneg (rest : list PurchaseRecord.t) :
  forall prev,
    Sorted Z.le (dates_of (prev :: rest)) ->
    Forall (fun g => 0 <= g) (intervals_from prev rest).
Proof.
  induction rest as [|p rest IH]; intros prev H; [constructor|].
  cbn [dates_of map] in H. inversion H as [|? ? Hs Hd]; subst.
  inversion Hd as [|? ? Hle]; subst.
  cbn [intervals_from]. constructor.
  - apply days_nonneg. unfold sub. lia.
  - apply IH. exact Hs.
Qed.

Lemma ascending_first_le_last (p : PurchaseRecord.t)
    (l : list PurchaseRecord.t) :
  ascending (p :: l) ->
  PurchaseRecord.purchase_date p
  <= PurchaseRecord.purchase_date (last (p :: l) p).
Proof.
  intros H. rewrite <- (ascending_last_ts _ _ H).
  unfold last_ts. cbn [dates_of map].
  apply (max_is_upper_bound (map PurchaseRecord.purchase_date l)).
Qed.

Section Ascending.

Variable AsyncSessionLocal : Session.
Variables (utcnow utcnow' : datetime).
Variables (user_id : Z) (product_name : string) (session : option Session).
Variables (purchases : list PurchaseRecord.t) (dates : option Z).
Variable found : option ProductAnalytics.t.

Hypothesis Hanswers :
  answers (session_or session AsyncSessionLocal) user_id product_name
          purchases dates found.



End Ascending.

(* ================================================================== *)
(** ** Histories whose estimate can be built *)
(* ================================================================== *)

Lemma round_half_even_le_int (x : Q) (m : Z) :
  (x <= inject_Z m)%Q -> round_half_even x <= m.
Proof.
  intros H. unfold round_half_even.
  pose proof (Qfloor_le x) as Hf.
  assert (F : Qfloor x <= m).
  { rewrite Zle_Qle. lra. }
  assert (G : (1 # 2 <= x - inject_Z (Qfloor x))%Q -> Qfloor x + 1 <= m).
  { intros Hh. assert (L : (inject_Z (Qfloor x) < inject_Z m)%Q) by lra.
    rewrite <- Zlt_Qlt in L. lia. }
  destruct (Qcompare (x - inject_Z (Qfloor x)) (1 # 2)) eqn:C.
  - apply Qeq_alt in C. destruct (Z.even _); [exact F|].
    apply G. rewrite C. lra.
  - exact F.
  - apply Qgt_alt in C. apply G. lra.
Qed.

(** A step forward of at most the span of the history stays in both
    ranges when the span fits once more before the end of the calendar. *)
Lemma step_in_ranges (t0 t1 step : Z) :
  datetime_min <= t0 ->
  t0 <= t1 ->
  0 <= step <= t1 - t0 ->
  t1 + (t1 - t0) <= datetime_max ->
  (- max_timedelta_days <= days step <= max_timedelta_days)
  /\ (datetime_min <= t1 + step <= datetime_max).
Proof.
  unfold datetime_min, datetime_max, max_timedelta_days, days, us_per_day.
  intros H0 H1 [Hs Hs'] Hroom. split; [|lia].
  split.
  - apply Z.le_trans with 0; [lia|]. apply Z.div_pos; lia.
  - apply Z.div_le_upper_bound; lia.
Qed.

(** An ascending history of calendar dates whose span fits once more
    before the end of the calendar has an estimate that can be built. *)
Lemma ascending_estimate_in_calendar (purchases : list PurchaseRecord.t) :
  purchases <> [] ->
  ascending purchases ->
  in_calendar purchases ->
  last_ts purchases + (last_ts purchases - first_ts purchases)
    <= datetime_max ->
  estimate_in_calendar purchases.
Proof.
  intros Hne Hasc Hcal Hroom.
  destruct (ascending_endpoints purchases Hne Hasc) as [Ef El].
  assert (Hfl : first_purchase purchases <= last_purchase purchases).
  { destruct purchases as [|p l]; [contradiction|].
    exact (ascending_first_le_last _ _ Hasc). }
  assert (Hmin : datetime_min <= first_purchase purchases).
  { destruct purchases as [|p l]; [contradiction|].
    unfold in_calendar in Hcal. cbn [dates_of map] in Hcal.
    inversion Hcal as [|? ? Hp _]; subst. unfold first_purchase. lia. }
  rewrite <- Ef, <- El in Hroom. clear Ef El.
  intros v Hv Hnz. cbv zeta. unfold span_average in Hv.
  set (n := Z.of_nat (List.length purchases)) in *.
  destruct (1 <? n) eqn:L; [|discriminate].
  apply Z.ltb_lt in L. clearbody n. injection Hv as <-.
  set (t0 := first_purchase purchases) in *.
  set (t1 := last_purchase purchases) in *.
  clearbody t0 t1.
  set (span := days (sub t1 t0)).
  assert (Hspan : 0 <= span) by (apply days_nonneg; unfold sub; lia).
  assert (Hfloor : span * us_per_day <= t1 - t0).
  { unfold span, days, sub. rewrite Z.mul_comm.
    apply Z.mul_div_le. unfold us_per_day. lia. }
  assert (Hv0 : (0 <= inject_Z span / inject_Z (n - 1))%Q).
  { apply Qle_shift_div_l.
    - change 0%Q with (inject_Z 0). rewrite <- Zlt_Qlt. lia.
    - rewrite Qmult_0_l. change 0%Q with (inject_Z 0).
      rewrite <- Zle_Qle. exact Hspan. }
  assert (Hv1 : (inject_Z span / inject_Z (n - 1) <= inject_Z span)%Q).
  { apply Qle_shift_div_r.
    - change 0%Q with (inject_Z 0). rewrite <- Zlt_Qlt. lia.
    - rewrite <- inject_Z_mult, <- Zle_Qle. nia. }
  set (v := (inject_Z span / inject_Z (n - 1))%Q) in *. clearbody v.
  assert (HD : (0 <= inject_Z us_per_day)%Q).
  { unfold us_per_day. change 0%Q with (inject_Z 0).
    rewrite <- Zle_Qle. lia. }
  assert (Hlo : 0 <= round_half_even (v * inject_Z us_per_day)%Q).
  { apply round_half_even_nonneg. apply Qmult_le_0_compat; assumption. }
  assert (Hhi : round_half_even (v * inject_Z us_per_day)%Q <= t1 - t0).
  { apply round_half_even_le_int.
    apply Qle_trans with (inject_Z (span * us_per_day)).
    - rewrite inject_Z_mult. apply Qmult_le_compat_r; assumption.
    - rewrite <- Zle_Qle. exact Hfloor. }
  apply (step_in_ranges t0 t1); [exact Hmin|exact Hfl| |exact Hroom].
  split; assumption.
Qed.

Section InCalendar.

Variable AsyncSessionLocal : Session.
Variables (utcnow utcnow' : datetime).
Variables (user_id : Z) (product_name : string) (session : option Session).
Variables (purchases : list PurchaseRecord.t) (dates : option Z).
Variable found : option ProductAnalytics.t.

Hypothesis Hanswers :
  answers (session_or session AsyncSessionLocal) user_id product_name
          purchases dates found.


(** X20.  An ascending history of calendar dates whose span fits once
    more between the last purchase and the end of the year 9999 always
    gets its row. *)
Theorem room_for_one_more_span_gives_a_row :
  purchases <> [] ->
  ascending purchases ->
  in_calendar purchases ->
  last_ts purchases + (last_ts purchases - first_ts purchases)
    <= datetime_max ->
  exists a,
    update_analytics AsyncSessionLocal utcnow utcnow' user_id product_name
                     session = Returned (Some a).
Proof.
  intros Hne Hasc Hcal Hroom.
  assert (Hbuilt : estimate_in_calendar purchases)
    by (apply ascending_estimate_in_calendar; assumption).
  apply estimate_in_calendar_iff in Hbuilt. destruct Hbuilt as [e He].
  eexists.
  exact (update_analytics_returns _ _ _ _ _ _ _ _ _ Hanswers e Hne He).
Qed.

End InCalendar.

(* ================================================================== *)
(** ** The written row, read again and presented *)
(* ================================================================== *)

Lemma trunc_float_of_int (n : Z) : trunc (float_of_int n) = n.
Proof. unfold trunc, float_of_int; simpl. apply Z.quot_1_r. Qed.

Lemma int_of_day_count (n : Z) : int (opt_float_or (Some (float_of_int n)) 0) = n.
Proof.
  unfold opt_float_or, float_truthy, float_of_int.
  rewrite Qeq_bool_inject_Z.
  destruct (n =? 0) eqn:E; simpl.
  - apply Z.eqb_eq in E. symmetry. exact E.
  - apply trunc_float_of_int.
Qed.

(** The status is OVERDUE exactly from urgency 100 on, and OPTIONAL
    exactly below 50. *)
(** The tiers of [get_urgency_status], as a fact other proofs can use. *)
Lemma urgency_tiers_of_row (a : ProductAnalytics.t) :
  let u := ProductAnalytics.repurchase_urgency a in
  let label := ProductAnalytics.get_urgency_status a in
  ((100 <= u)%Q -> label = "🔴 OVERDUE"%string)
  /\ ((85 <= u)%Q /\ (u < 100)%Q -> label = "🟠 URGENT"%string)
  /\ ((70 <= u)%Q /\ (u < 85)%Q -> label = "🟡 SOON"%string)
  /\ ((50 <= u)%Q /\ (u < 70)%Q -> label = "🟢 UPCOMING"%string)
  /\ ((u < 50)%Q -> label = "⚪ OPTIONAL"%string).
Proof.
  cbv zeta. unfold ProductAnalytics.get_urgency_status.
  set (u := ProductAnalytics.repurchase_urgency a). clearbody u.
  destruct (float_ge u 100) eqn:H100;
    [apply float_ge_iff in H100 | apply float_ge_false_iff in H100];
  (destruct (float_ge u 85) eqn:H85;
    [apply float_ge_iff in H85 | apply float_ge_false_iff in H85]);
  (destruct (float_ge u 70) eqn:H70;
    [apply float_ge_iff in H70 | apply float_ge_false_iff in H70]);
  (destruct (float_ge u 50) eqn:H50;
    [apply float_ge_iff in H50 | apply float_ge_false_iff in H50]);
  repeat split; intros; solve [reflexivity | exfalso; lra].
Qed.

Lemma overdue_iff (a : ProductAnalytics.t) :
  ProductAnalytics.get_urgency_status a = "🔴 OVERDUE"%string
  <-> (100 <= ProductAnalytics.repurchase_urgency a)%Q.
Proof.
  unfold ProductAnalytics.get_urgency_status.
  rewrite <- float_ge_iff.
  destruct (float_ge _ 100); [split; reflexivity|].
  split; [|discriminate].
  destruct (float_ge _ 85); [discriminate|].
  destruct (float_ge _ 70); [discriminate|].
  destruct (float_ge _ 50); discriminate.
Qed.

Lemma optional_iff (a : ProductAnalytics.t) :
  ProductAnalytics.get_urgency_status a = "⚪ OPTIONAL"%string
  <-> (ProductAnalytics.repurchase_urgency a < 50)%Q.
Proof.
  unfold ProductAnalytics.get_urgency_status.
  set (u := ProductAnalytics.repurchase_urgency a).
  destruct (float_ge u 100) eqn:H100;
    [apply float_ge_iff in H100 | apply float_ge_false_iff in H100];
  (destruct (float_ge u 85) eqn:H85;
    [apply float_ge_iff in H85 | apply float_ge_false_iff in H85]);
  (destruct (float_ge u 70) eqn:H70;
    [apply float_ge_iff in H70 | apply float_ge_false_iff in H70]);
  (destruct (float_ge u 50) eqn:H50;
    [apply float_ge_iff in H50 | apply float_ge_false_iff in H50]);
  split; intros H; try discriminate H; try reflexivity; try assumption;
    exfalso; lra.
Qed.

Section Presentation.

Variable AsyncSessionLocal : Session.
Variable isoformat : datetime -> string.
Variables (utcnow utcnow' : datetime).
Variables (user_id : Z) (product_name : string) (session : option Session).
Variables (purchases : list PurchaseRecord.t) (dates : option Z).
Variable found : option ProductAnalytics.t.

Hypothesis Hanswers :
  answers (session_or session AsyncSessionLocal) user_id product_name
          purchases dates found.

(** X7.  Feeding the written row back changes nothing: when a second
    session hands over the same purchases and count together with the row
    the first call returned, the second call, at the same clock readings,
    returns that very row. *)
Theorem update_analytics_idempotent (a : ProductAnalytics.t)
    (session2 : option Session) :
  update_analytics AsyncSessionLocal utcnow utcnow' user_id product_name
                   session = Returned (Some a) ->
  answers (session_or session2 AsyncSessionLocal) user_id product_name
          purchases dates (Some a) ->
  update_analytics AsyncSessionLocal utcnow utcnow' user_id product_name
                   session2 = Returned (Some a).
Proof.
  intros H1 H2.
  destruct (update_analytics_row _ _ _ _ _ _ _ _ _ Hanswers a H1)
    as [Hne [e [He ->]]].
  rewrite (update_analytics_returns _ _ _ _ _ _ _ _ _ H2 e Hne He).
  reflexivity.
Qed.


(** X9.  A product bought once is presented as OPTIONAL, with the
    message that there is not enough data, an average interval of 0 and
    the whole days since that purchase. *)
Theorem single_purchase_is_presented_optional (p : PurchaseRecord.t) :
  purchases = [p] ->
  exists a,
    update_analytics AsyncSessionLocal utcnow utcnow' user_id product_name
                     session = Returned (Some a)
    /\ status (prediction_of isoformat a) = "⚪ OPTIONAL"%string
    /\ message (prediction_of isoformat a) =
       ("Not enough data for " ++ ProductAnalytics.product_name a
        ++ " predictions yet.")%string
    /\ avg_interval (prediction_of isoformat a) = 0
    /\ days_since_last (prediction_of isoformat a) =
       days (sub utcnow (PurchaseRecord.purchase_date p)).
Proof.
  intros E.
  assert (Hne : purchases <> []) by (rewrite E; discriminate).
  assert (He : PurchaseAnalyticsService.estimated_next
                 (last_purchase purchases) (span_average purchases)
               = Returned None) by (rewrite E; reflexivity).
  eexists. split.
  - exact (update_analytics_returns _ _ _ _ _ _ _ _ _ Hanswers None Hne He).
  - rewrite E. unfold written_row.
    cbn [List.length Z.of_nat last last_purchase].
    split; [reflexivity|]. split; [reflexivity|]. split; [reflexivity|].
    cbn [prediction_of days_since_last assign
         ProductAnalytics.days_since_last_purchase].
    apply int_of_day_count.
Qed.


End Presentation.

Section Clock.

Variable AsyncSessionLocal : Session.
Variables (user_id : Z) (product_name : string) (session : option Session).
Variables (purchases : list PurchaseRecord.t) (dates : option Z).
Variable found : option ProductAnalytics.t.

Hypothesis Hanswers :
  answers (session_or session AsyncSessionLocal) user_id product_name
          purchases dates found.


End Clock.

(* ================================================================== *)
(** ** The shopping summary *)
(* ================================================================== *)

(** Each prediction passes exactly one of the three tests. *)
Lemma one_bucket (p : Prediction) :
  (is_urgent p = true /\ is_upcoming p = false /\ is_optional p = false)
  \/ (is_urgent p = false /\ is_upcoming p = true /\ is_optional p = false)
  \/ (is_urgent p = false /\ is_upcoming p = false /\ is_optional p = true).
Proof.
  unfold is_urgent, is_upcoming, is_optional, float_lt.
  change (Qle_bool 90 (urgency p)) with (float_ge (urgency p) 90).
  change (Qle_bool 70 (urgency p)) with (float_ge (urgency p) 70).
  destruct (float_ge (urgency p) 90) eqn:H90;
    [apply float_ge_iff in H90 | apply float_ge_false_iff in H90];
  (destruct (float_ge (urgency p) 70) eqn:H70;
    [apply float_ge_iff in H70 | apply float_ge_false_iff in H70]);
  cbn; auto; exfalso; lra.
Qed.

Lemma buckets_permutation (l : list Prediction) :
  Permutation (filter is_urgent l ++ filter is_upcoming l
               ++ filter is_optional l) l.
Proof.
  induction l as [|p l IH]; [constructor|].
  cbn [filter].
  destruct (one_bucket p) as [[-> [-> ->]]|[[-> [-> ->]]|[-> [-> ->]]]].
  - cbn [app]. constructor. exact IH.
  - apply Permutation_sym, Permutation_cons_app, Permutation_sym. exact IH.
  - rewrite app_assoc.
    apply Permutation_sym, Permutation_cons_app, Permutation_sym.
    rewrite <- app_assoc. exact IH.
Qed.

Lemma filter_none {A} (f : A -> bool) (l : list A) :
  Forall (fun x => f x = false) l -> filter f l = [].
Proof.
  induction 1 as [|x l Hx _ IH]; [reflexivity|].
  cbn [filter]. rewrite Hx. exact IH.
Qed.

(** On a ranking in descending order the buckets are consecutive
    segments. *)
Lemma buckets_of_descending (l : list Prediction) :
  StronglySorted (fun p q => (urgency q <= urgency p)%Q) l ->
  filter is_urgent l ++ filter is_upcoming l ++ filter is_optional l = l.
Proof.
  induction 1 as [|p l Hs IH Hall]; [reflexivity|].
  cbn [filter].
  destruct (one_bucket p) as [[U [-> ->]]|[[U [M O]]|[U [M O]]]];
    rewrite U.
  - cbn [app]. rewrite IH. reflexivity.
  - rewrite M, O.
    assert (N : filter is_urgent l = []).
    { apply filter_none. rewrite Forall_forall in *. intros q Hq.
      specialize (Hall q Hq). unfold is_urgent in *.
      apply float_ge_false_iff. apply float_ge_false_iff in U. lra. }
    rewrite N in *. cbn [app] in *. rewrite IH. reflexivity.
  - rewrite M, O.
    assert (N : filter is_urgent l = []).
    { apply filter_none. rewrite Forall_forall in *. intros q Hq.
      specialize (Hall q Hq). unfold is_urgent in *.
      apply float_ge_false_iff. apply float_ge_false_iff in U. lra. }
    assert (N' : filter is_upcoming l = []).
    { apply filter_none. rewrite Forall_forall in *. intros q Hq.
      specialize (Hall q Hq). unfold is_upcoming, is_optional in *.
      apply andb_false_iff. left.
      apply float_ge_false_iff. unfold float_lt in O.
      apply negb_true_iff in O.
      change (Qle_bool 70 (urgency p)) with (float_ge (urgency p) 70) in O.
      apply float_ge_false_iff in O. lra. }
    rewrite N, N' in *. cbn [app] in *. rewrite IH. reflexivity.
Qed.

Lemma descending_predictions (isoformat : datetime -> string)
    (rows : list ProductAnalytics.t) :
  descending rows ->
  StronglySorted (fun p q => (urgency q <= urgency p)%Q)
                 (map (prediction_of isoformat) rows).
Proof.
  intros H. apply Sorted_StronglySorted in H.
  - induction H as [|a l Hs IH Hall]; cbn [map]; constructor.
    + exact IH.
    + rewrite Forall_forall in *. intros q Hq.
      apply in_map_iff in Hq. destruct Hq as [b [<- Hb]].
      exact (Hall b Hb).
  - intros a b c Hab Hbc. cbv beta in *. lra.
Qed.

Section ShoppingSummary.

Variable AsyncSessionLocal : Session.
Variable isoformat : datetime -> string.
Variables (user_id : Z) (session : option Session).

(** The summary built from a list of predictions. *)
Lemma get_shopping_summary_returns :
  exists predictions,
    get_predicted_purchases AsyncSessionLocal isoformat user_id 0%Q 999
      (Some (session_or session AsyncSessionLocal)) = Returned predictions
    /\ get_shopping_summary AsyncSessionLocal isoformat user_id session =
       Returned
         {| urgent := filter is_urgent predictions;
            upcoming := filter is_upcoming predictions;
            optional := filter is_optional predictions;
            total := Z.of_nat (List.length predictions);
            summary :=
              Some ("You need to shop soon! "
                    ++ len_str (filter is_urgent predictions)
                    ++ " urgent items, "
                    ++ len_str (filter is_upcoming predictions)
                    ++ " upcoming.")%string |}.
Proof.
  unfold get_shopping_summary, get_predicted_purchases.
  cbn [session_or].
  destruct (select_ranked _ _ _ _) as [rows|e]; eexists; split; reflexivity.
Qed.

(** X12.  Whatever the session does, the summary call returns, with its
    text, and its total is the number of predictions in the three buckets
    together: the dict of the [except] branch is never returned. *)
Theorem shopping_summary_total_is_sum_of_buckets :
  exists s,
    get_shopping_summary AsyncSessionLocal isoformat user_id session
      = Returned s
    /\ total s =
       Z.of_nat (List.length (urgent s) + List.length (upcoming s)
                 + List.length (optional s))
    /\ summary s =
       Some ("You need to shop soon! " ++ len_str (urgent s)
             ++ " urgent items, " ++ len_str (upcoming s)
             ++ " upcoming.")%string.
Proof.
  destruct get_shopping_summary_returns as [l [_ ->]].
  eexists. split; [reflexivity|].
  cbn [total urgent upcoming optional summary]. split; [|reflexivity].
  rewrite <- (Permutation_length (buckets_permutation l)).
  rewrite !length_app, Nat.add_assoc. reflexivity.
Qed.

(** X13.  Every ranked row is presented in exactly one bucket: the three
    buckets together are a rearrangement of the predictions of the ranked
    rows, each bucket holding those that pass its test. *)
Theorem shopping_summary_partitions (rows : list ProductAnalytics.t) :
  select_ranked (session_or session AsyncSessionLocal) user_id 0%Q 999
    = Returned rows ->
  exists s,
    get_shopping_summary AsyncSessionLocal isoformat user_id session
      = Returned s
    /\ Permutation (urgent s ++ upcoming s ++ optional s)
                   (map (prediction_of isoformat) rows)
    /\ Forall (fun p => (90 <= urgency p)%Q) (urgent s)
    /\ Forall (fun p => (70 <= urgency p)%Q /\ (urgency p < 90)%Q)
              (upcoming s)
    /\ Forall (fun p => (urgency p < 70)%Q) (optional s).
Proof.
  intros H. destruct get_shopping_summary_returns as [l [Hl ->]].
  unfold get_predicted_purchases in Hl. cbn [session_or] in Hl.
  rewrite H in Hl. injection Hl as <-.
  eexists. split; [reflexivity|].
  cbn [urgent upcoming optional].
  split; [apply buckets_permutation|].
  repeat split; apply Forall_forall; intros p Hp;
    apply filter_In in Hp; destruct Hp as [_ Hp].
  - apply float_ge_iff. exact Hp.
  - unfold is_upcoming in Hp. apply andb_true_iff in Hp.
    destruct Hp as [H70 H90]. split.
    + apply float_ge_iff. exact H70.
    + apply float_ge_false_iff. unfold float_lt in H90.
      apply negb_true_iff in H90. exact H90.
  - apply float_ge_false_iff. unfold is_optional, float_lt in Hp.
    apply negb_true_iff in Hp. exact Hp.
Qed.

(** X14.  When the ranked rows come in descending order of urgency, the
    buckets are consecutive segments of the ranking: urgent, then
    upcoming, then optional, each in ranking order. *)
Theorem shopping_summary_buckets_are_segments
    (rows : list ProductAnalytics.t) :
  select_ranked (session_or session AsyncSessionLocal) user_id 0%Q 999
    = Returned rows ->
  descending rows ->
  exists s,
    get_shopping_summary AsyncSessionLocal isoformat user_id session
      = Returned s
    /\ urgent s ++ upcoming s ++ optional s
       = map (prediction_of isoformat) rows.
Proof.
  intros H Hdesc. destruct get_shopping_summary_returns as [l [Hl ->]].
  unfold get_predicted_purchases in Hl. cbn [session_or] in Hl.
  rewrite H in Hl. injection Hl as <-.
  eexists. split; [reflexivity|].
  cbn [urgent upcoming optional].
  apply buckets_of_descending, descending_predictions. exact Hdesc.
Qed.

(** X15.  When the ranking query raises, the summary is not an error: it
    has three empty buckets, total 0 and the text with both counts 0. *)
Theorem shopping_summary_on_failure (e : exn) :
  select_ranked (session_or session AsyncSessionLocal) user_id 0%Q 999
    = Raised e ->
  get_shopping_summary AsyncSessionLocal isoformat user_id session
  = Returned
      {| urgent := [];
         upcoming := [];
         optional := [];
         total := 0;
         summary :=
           Some "You need to shop soon! 0 urgent items, 0 upcoming."%string
      |}.
Proof.
  intros H. unfold get_shopping_summary, get_predicted_purchases.
  cbn [session_or]. rewrite H. reflexivity.
Qed.

(** X16.  The buckets against the status labels: an urgent prediction is
    labelled OVERDUE or URGENT, an upcoming one URGENT or SOON, an
    optional one UPCOMING or OPTIONAL. *)
Theorem shopping_summary_buckets_and_labels :
  exists s,
    get_shopping_summary AsyncSessionLocal isoformat user_id session
      = Returned s
    /\ Forall (fun p => status p = "🔴 OVERDUE"%string
                        \/ status p = "🟠 URGENT"%string) (urgent s)
    /\ Forall (fun p => status p = "🟠 URGENT"%string
                        \/ status p = "🟡 SOON"%string) (upcoming s)
    /\ Forall (fun p => status p = "🟢 UPCOMING"%string
                        \/ status p = "⚪ OPTIONAL"%string) (optional s).
Proof.
  destruct get_shopping_summary_returns as [l [Hl ->]].
  eexists. split; [reflexivity|].
  cbn [urgent upcoming optional].
  assert (Hrows : forall p, In p l ->
            exists a, p = prediction_of isoformat a).
  { unfold get_predicted_purchases in Hl. cbn [session_or] in Hl.
    destruct (select_ranked _ _ _ _) as [rows|e];
      injection Hl as <-; intros p Hp; [|contradiction].
    apply in_map_iff in Hp. destruct Hp as [a [<- _]]. exists a.
    reflexivity. }
  repeat split; apply Forall_forall; intros p Hp;
    apply filter_In in Hp; destruct Hp as [Hin Hp];
    destruct (Hrows p Hin) as [a ->];
    pose proof (urgency_tiers_of_row a) as T; cbv zeta in T;
    destruct T as [T100 [T85 [T70 [T50 T0]]]];
    unfold is_urgent, is_upcoming, is_optional, float_lt in Hp;
    cbn [prediction_of status urgency] in *;
    set (u := ProductAnalytics.repurchase_urgency a) in *.
  - apply float_ge_iff in Hp.
    destruct (Qlt_le_dec u 100);
      [right; apply T85; split; lra|left; apply T100; lra].
  - apply andb_true_iff in Hp. destruct Hp as [H70 H90].
    apply float_ge_iff in H70. apply negb_true_iff in H90.
    change (Qle_bool 90 u) with (float_ge u 90) in H90.
    apply float_ge_false_iff in H90.
    destruct (Qlt_le_dec u 85);
      [right; apply T70; split; lra|left; apply T85; split; lra].
  - apply negb_true_iff in Hp.
    change (Qle_bool 70 u) with (float_ge u 70) in Hp.
    apply float_ge_false_iff in Hp.
    destruct (Qlt_le_dec u 50);
      [right; apply T0; lra|left; apply T50; split; lra].
Qed.

End ShoppingSummary.

(* ================================================================== *)
(** ** The detail of one product *)
(* ================================================================== *)

Section ItemPrediction.

Variable AsyncSessionLocal : Session.
Variable isoformat : datetime -> string.
Variables (user_id : Z) (product_name : string) (session : option Session).

(** X17.  The detail call never raises, and it returns [None] in three
    cases only: the session finds no row for the product, the query
    raises, or the row found holds NULL in its urgency column, on which
    the status label raises. *)
Theorem item_prediction_absent_iff :
  (exists r,
     get_item_prediction AsyncSessionLocal isoformat user_id product_name
                         session = Returned r)
  /\ (get_item_prediction AsyncSessionLocal isoformat user_id product_name
                          session = Returned None
      <-> (select_item (session_or session AsyncSessionLocal) user_id
                       product_name = Returned None
           \/ (exists e,
                 select_item (session_or session AsyncSessionLocal)
                             user_id product_name = Raised e)
           \/ (exists row,
                 select_item (session_or session AsyncSessionLocal)
                             user_id product_name = Returned (Some row)
                 /\ ProductAnalytics.urgency_is_null row = true))).
Proof.
  unfold get_item_prediction, ProductAnalytics.get_urgency_status_unchecked.
  destruct (select_item _ _ _) as [[row|]|e]; cbn [bind try_except ret].
  - destruct (ProductAnalytics.urgency_is_null row) eqn:N;
      cbn [bind try_except ret].
    + split; [eexists; reflexivity|]. split; [|reflexivity].
      intros _. right. right. exists row. auto.
    + split; [eexists; reflexivity|]. split.
      * discriminate.
      * intros [H|[[e H]|[row' [H N']]]]; try discriminate H.
        injection H as <-. congruence.
  - split; [eexists; reflexivity|]. split; auto.
  - split; [eexists; reflexivity|]. split; [|reflexivity].
    intros _. right. left. eauto.
Qed.

(** X18.  The two views of one row agree: when the session both ranks a
    row and finds it by name, the ranking holds a prediction with the
    name, urgency, status and message of the detail, and with the day
    counts of the detail cut to integers (0 for a NULL). *)
Theorem ranking_agrees_with_detail (urgency_threshold : Q) (limit : Z)
    (rows : list ProductAnalytics.t) (a : ProductAnalytics.t) :
  select_ranked (session_or session AsyncSessionLocal) user_id
                urgency_threshold limit = Returned rows ->
  In a rows ->
  select_item (session_or session AsyncSessionLocal) user_id
              product_name = Returned (Some (ProductAnalytics.checked a)) ->
  exists d predictions p,
    get_item_prediction AsyncSessionLocal isoformat user_id product_name
                        session = Returned (Some d)
    /\ get_predicted_purchases AsyncSessionLocal isoformat user_id
                               urgency_threshold limit session
       = Returned predictions
    /\ In p predictions
    /\ PurchasePredictionService.product_name p = Detail.product_name d
    /\ urgency p = Detail.urgency_score d
    /\ status p = Detail.status d
    /\ message p = Detail.recommendation d
    /\ days_since_last p = truncated_or_zero (Detail.days_since_last d)
    /\ avg_interval p = truncated_or_zero (Detail.avg_interval_days d).
Proof.
  intros Hr Hin Hf.
  exists (detail_of isoformat (ProductAnalytics.checked a)),
         (map (prediction_of isoformat) rows),
         (prediction_of isoformat a).
  split.
  { unfold get_item_prediction. rewrite Hf. reflexivity. }
  split.
  { unfold get_predicted_purchases. rewrite Hr. reflexivity. }
  split; [apply in_map; exact Hin|].
  repeat split.
  - unfold prediction_of, detail_of, truncated_or_zero, opt_float_or,
      float_truthy.
    cbn [days_since_last Detail.days_since_last ProductAnalytics.checked
         ProductAnalytics.columns].
    destruct (ProductAnalytics.days_since_last_purchase a) as [x|];
      [destruct (Qeq_bool x 0)|]; reflexivity.
  - unfold prediction_of, detail_of, truncated_or_zero, opt_float_or,
      float_truthy.
    cbn [avg_interval Detail.avg_interval_days ProductAnalytics.checked
         ProductAnalytics.columns].
    destruct (ProductAnalytics.avg_days_between_purchases a) as [x|];
      [destruct (Qeq_bool x 0)|]; reflexivity.
Qed.

End ItemPrediction.

(* ================================================================== *)
(** ** Further properties at work on the sample histories *)
(* ================================================================== *)


(** A lost connection with a working rollback: no row, no exception. *)
Lemma update_returns_none_on_lost_connection :
  update_analytics Sample.milk_session (day 21) (day 21) 1 "Milk"
                   (Some Sample.broken) = Returned None.
Proof. reflexivity. Qed.

(** The wine again, with a rollback that fails: the rollback's exception
    escapes although no statement raised. *)
Lemma update_raises_on_wine_when_rollback_fails :
  update_analytics Sample.broken (day 2556400) (day 2556400) 1 "Wine"
                   (Some Sample.wine_stuck)
  = Raised (SQLAlchemyError "cannot roll back").
Proof. reflexivity. Qed.

(** The milk row is returned: its commit went through. *)
Lemma update_returns_row_only_when_committed_milk :
  commit Sample.milk_session = Returned tt.
Proof.
  destruct (update_returns_row_only_when_committed Sample.broken (day 21)
              (day 21) 1 "Milk" (Some Sample.milk_session)
              (assign (ProductAnalytics.new 1 "Milk") 3 (day 14)
                      (Some (14 # 2)%Q) 7 (Some 7) (Some 7)
                      (1400 # 14)%Q (300 # 3)%Q (Some (day 21)) (day 21)))
    as [Hc _].
  - reflexivity.
  - exact Hc.
Defined.

(** A failed commit whose rollback fails too: the rollback's exception
    escapes. *)
Lemma update_raises_only_from_rollback_stuck :
  update_analytics Sample.broken (day 21) (day 21) 1 "Milk"
                   (Some Sample.stuck)
  = Raised (SQLAlchemyError "cannot roll back").
Proof. reflexivity. Qed.




(** Milk recomputed a second time from the row of the first. *)
Lemma update_analytics_idempotent_milk :
  exists a,
    update_analytics Sample.broken (day 21) (day 21) 1 "Milk"
                     (Some Sample.milk_session) = Returned (Some a)
    /\ update_analytics Sample.broken (day 21) (day 21) 1 "Milk"
         (Some (Sample.session Sample.milk (Some 3) (Some a) []))
       = Returned (Some a).
Proof.
  eexists. split; [reflexivity|].
  refine (update_analytics_idempotent Sample.broken (day 21) (day 21) 1
            "Milk" (Some Sample.milk_session) Sample.milk (Some 3) None
            _ _ (Some (Sample.session Sample.milk (Some 3) _ [])) _ _).
  - constructor; reflexivity.
  - reflexivity.
  - constructor; reflexivity.
Defined.


(** Soap bought once, presented on day 30. *)
Lemma single_purchase_is_presented_optional_soap :
  exists a,
    update_analytics Sample.broken (day 30) (day 30) 1 "Soap"
                     (Some Sample.soap_session) = Returned (Some a)
    /\ status (prediction_of Sample.iso a) = "⚪ OPTIONAL"%string
    /\ days_since_last (prediction_of Sample.iso a) = 30.
Proof.
  destruct (single_purchase_is_presented_optional Sample.broken Sample.iso
              (day 30) (day 30) 1 "Soap" (Some Sample.soap_session)
              Sample.soap (Some 1) None)
    with (p := Sample.purchase "Soap" (day 0))
    as [a [Hrun [Hstatus [_ [_ Hdays]]]]].
  - constructor; reflexivity.
  - reflexivity.
  - exists a. split; [exact Hrun|]. split; [exact Hstatus|].
    rewrite Hdays. reflexivity.
Defined.



(** The five ranked rows: two urgent, two upcoming, one optional. *)
Lemma shopping_summary_partitions_ranked :
  exists s,
    get_shopping_summary Sample.broken Sample.iso 1
                         (Some Sample.ranked_session) = Returned s
    /\ Permutation (urgent s ++ upcoming s ++ optional s)
                   (map (prediction_of Sample.iso) Sample.ranked_rows)
    /\ List.length (urgent s) = 2%nat
    /\ List.length (upcoming s) = 2%nat
    /\ List.length (optional s) = 1%nat.
Proof.
  destruct (shopping_summary_partitions Sample.broken Sample.iso 1
              (Some Sample.ranked_session) Sample.ranked_rows)
    as [s [Hrun [Hperm _]]].
  - reflexivity.
  - exists s. split; [exact Hrun|]. split; [exact Hperm|].
    pose proof Hrun as Hs. vm_compute in Hs.
    injection Hs as Hs. subst s. repeat split; reflexivity.
Defined.

Lemma shopping_summary_buckets_are_segments_ranked :
  exists s,
    get_shopping_summary Sample.broken Sample.iso 1
                         (Some Sample.ranked_session) = Returned s
    /\ urgent s ++ upcoming s ++ optional s
       = map (prediction_of Sample.iso) Sample.ranked_rows.
Proof.
  refine (shopping_summary_buckets_are_segments Sample.broken Sample.iso 1
            (Some Sample.ranked_session) Sample.ranked_rows _ _).
  - reflexivity.
  - repeat (constructor; try (vm_compute; discriminate)).
Defined.

(** A lost connection: the summary reads zero and zero. *)
Lemma shopping_summary_on_failure_broken :
  get_shopping_summary Sample.milk_session Sample.iso 1
                       (Some Sample.broken)
  = Returned
      {| urgent := [];
         upcoming := [];
         optional := [];
         total := 0;
         summary :=
           Some "You need to shop soon! 0 urgent items, 0 upcoming."%string
      |}.
Proof.
  refine (shopping_summary_on_failure Sample.milk_session Sample.iso 1
            (Some Sample.broken) (SQLAlchemyError "connection lost") _).
  reflexivity.
Defined.

(** The tea row in both views: 7.5 days in the detail, 7 in the
    ranking. *)
Lemma ranking_agrees_with_detail_tea :
  exists d p,
    get_item_prediction Sample.broken Sample.iso 1 "Tea"
                        (Some Sample.tea_found_session) = Returned (Some d)
    /\ get_predicted_purchases Sample.broken Sample.iso 1 0%Q 10
                               (Some Sample.tea_found_session)
       = Returned [p]
    /\ Detail.avg_interval_days d = Some (15 # 2)%Q
    /\ avg_interval p = 7
    /\ status p = Detail.status d.
Proof.
  destruct (ranking_agrees_with_detail Sample.broken Sample.iso 1 "Tea"
              (Some Sample.tea_found_session) 0%Q 10 [Sample.stale_row]
              Sample.stale_row)
    as [d [l [p [Hd [Hl [Hin [_ [_ [Hstatus [_ [_ Havg]]]]]]]]]]].
  - reflexivity.
  - left. reflexivity.
  - reflexivity.
  - pose proof Hd as Hd'. cbv in Hd'. injection Hd' as Hd'.
    pose proof Hl as Hl'.
    unfold get_predicted_purchases in Hl'. cbn in Hl'.
    injection Hl' as Hl'. subst l.
    destruct Hin as [Hp|[]].
    exists d, p. split; [exact Hd|]. split; [rewrite <- Hp; exact Hl|].
    subst d. split; [reflexivity|]. split; [|exact Hstatus].
    rewrite Havg. reflexivity.
Defined.

(** Milk again: three calendar dates with room for two more weeks. *)
Lemma room_for_one_more_span_gives_a_row_milk :
  exists a,
    update_analytics Sample.broken (day 21) (day 21) 1 "Milk"
                     (Some Sample.milk_session) = Returned (Some a).
Proof.
  refine (room_for_one_more_span_gives_a_row Sample.broken (day 21) (day 21)
            1 "Milk" (Some Sample.milk_session) Sample.milk (Some 3) None
            _ _ _ _ _).
  - constructor; reflexivity.
  - discriminate.
  - repeat (constructor; try (vm_compute; discriminate)).
  - repeat (constructor; try (split; vm_compute; discriminate)).
  - vm_compute. discriminate.
Defined.

